(** * Discovery manager of tidb-operator: a shallow embedding

    Source: [pkg/manager/member/tidb_discovery_manager.go].

    The Go file derives five Kubernetes objects (Role, ServiceAccount,
    RoleBinding, Deployment, Service) from a cluster object and hands each
    of them to the [TypedControl] collaborator.  Go structs are records,
    Go maps are [gmap string string], slices are lists, the dynamic type
    of an interface value is an inductive type, and a function returning
    [(value, error)] returns a three-way result that also accounts for
    panics.  Only the fields this file reads or writes are kept. *)

From stdpp Require Import base option list strings gmap.
From Stdlib Require Import ZArith.

Set Default Proof Using "Type".
Local Open Scope string_scope.
Local Open Scope list_scope.

(** ** Kubernetes API types (k8s.io/api, k8s.io/apimachinery) *)

Module OwnerReference.
Record t := mk
  { APIVersion : string; Kind : string; Name : string; UID : string;
    Controller : bool; BlockOwnerDeletion : bool }.
End OwnerReference.

Module ObjectMeta.
(** [Annotations] is an optional map: the code tests it against [nil]. *)
Record t := mk
  { Name : string;
    Namespace : string;
    Labels : gmap string string;
    Annotations : option (gmap string string);
    OwnerReferences : list OwnerReference.t }.
End ObjectMeta.

Module LabelSelector.
Record t := mk { MatchLabels : gmap string string }.
End LabelSelector.

Module EnvVarSource.
(** [FieldRef] carries the [FieldPath] of an [ObjectFieldSelector]. *)
Record t := mk { FieldRef : option string }.
End EnvVarSource.

Module EnvVar.
Record t := mk
  { Name : string; Value : string; ValueFrom : option EnvVarSource.t }.
End EnvVar.

Module VolumeMount.
Record t := mk { Name : string; ReadOnly : bool; MountPath : string }.
End VolumeMount.

Module VolumeSource.
(** [Secret] carries the [SecretName] of a [SecretVolumeSource]; [Other]
    stands for any other volume source a user may have configured. *)
Record t := mk { Secret : option string; Other : option string }.
End VolumeSource.

Module Volume.
Record t := mk { Name : string; Source : VolumeSource.t }.
End Volume.

Module ContainerPort.
Record t := mk { Name : string; Protocol : string; Port : Z }.
End ContainerPort.

Module ResourceRequirements.
Record t := mk
  { Limits : gmap string string; Requests : gmap string string }.
End ResourceRequirements.

Module Container.
Record t := mk
  { Name : string;
    Resources : ResourceRequirements.t;
    Command : list string;
    Image : string;
    ImagePullPolicy : string;
    Env : list EnvVar.t;
    EnvFrom : list string;
    VolumeMounts : list VolumeMount.t;
    Ports : list ContainerPort.t }.

Definition set_VolumeMounts (v : list VolumeMount.t) (c : t) : t :=
  mk (Name c) (Resources c) (Command c) (Image c) (ImagePullPolicy c)
     (Env c) (EnvFrom c) v (Ports c).

Definition set_Env (e : list EnvVar.t) (c : t) : t :=
  mk (Name c) (Resources c) (Command c) (Image c) (ImagePullPolicy c)
     e (EnvFrom c) (VolumeMounts c) (Ports c).
End Container.

Module PodSpec.
(** [Scheduling] stands for the remaining fields that [BuildPodSpec] fills
    in (scheduler name, affinity, tolerations, ...); this file never reads
    or writes them, they only travel into the serialised pod spec. *)
Record t := mk
  { Containers : list Container.t;
    InitContainers : list Container.t;
    Volumes : list Volume.t;
    ServiceAccountName : string;
    Scheduling : string }.

Definition set_Containers (cs : list Container.t) (p : t) : t :=
  mk cs (InitContainers p) (Volumes p) (ServiceAccountName p) (Scheduling p).
Definition set_InitContainers (cs : list Container.t) (p : t) : t :=
  mk (Containers p) cs (Volumes p) (ServiceAccountName p) (Scheduling p).
Definition set_Volumes (vs : list Volume.t) (p : t) : t :=
  mk (Containers p) (InitContainers p) vs (ServiceAccountName p) (Scheduling p).
Definition set_ServiceAccountName (n : string) (p : t) : t :=
  mk (Containers p) (InitContainers p) (Volumes p) n (Scheduling p).
End PodSpec.

Module PodTemplateSpec.
Record t := mk { Meta : ObjectMeta.t; Spec : PodSpec.t }.
End PodTemplateSpec.

Module DeploymentSpec.
Record t := mk
  { Strategy : string;
    Replicas : option Z;
    Selector : LabelSelector.t;
    Template : PodTemplateSpec.t }.
End DeploymentSpec.

Module Deployment.
Record t := mk { Meta : ObjectMeta.t; Spec : DeploymentSpec.t }.
End Deployment.

Module PolicyRule.
Record t := mk
  { APIGroups : list string; Resources : list string;
    ResourceNames : list string; Verbs : list string }.
End PolicyRule.

Module Role.
Record t := mk { Meta : ObjectMeta.t; Rules : list PolicyRule.t }.
End Role.

Module ServiceAccount.
Record t := mk { Meta : ObjectMeta.t }.
End ServiceAccount.

Module Subject.
Record t := mk { Kind : string; Name : string }.
End Subject.

Module RoleRef.
Record t := mk { Kind : string; Name : string; APIGroup : string }.
End RoleRef.

Module RoleBinding.
Record t := mk
  { Meta : ObjectMeta.t; Subjects : list Subject.t; Ref : RoleRef.t }.
End RoleBinding.

Inductive IntOrString := FromInt (i : Z) | FromString (s : string).

Module ServicePort.
Record t := mk
  { Name : string; Port : Z; TargetPort : IntOrString; Protocol : string }.
End ServicePort.

Module ServiceSpec.
Record t := mk
  { Type_ : string;
    Ports : list ServicePort.t;
    Selector : gmap string string;
    IPFamilyPolicy : option string;
    IPFamilies : list string }.
End ServiceSpec.

Module Service.
Record t := mk { Meta : ObjectMeta.t; Spec : ServiceSpec.t }.
End Service.

(** Constants of the Kubernetes API packages. *)
Module corev1.
Definition GroupName : string := "".
Definition ServiceTypeClusterIP : string := "ClusterIP".
Definition ProtocolTCP : string := "TCP".
End corev1.

Module rbacv1.
Definition GroupName : string := "rbac.authorization.k8s.io".
Definition ServiceAccountKind : string := "ServiceAccount".
End rbacv1.

Module appsv1.
Definition RecreateDeploymentStrategyType : string := "Recreate".
End appsv1.

(** ** Errors and results

    [fmt.Errorf] builds a plain error; [controller.RequeueErrorf] builds
    the error the controller loop recognises as "requeue and retry". *)

Inductive error :=
  | PlainError (msg : string)
  | RequeueError (msg : string).

(** [err.Error()], which is also what the verb [%v] prints. *)
Definition Error (e : error) : string :=
  match e with PlainError s | RequeueError s => s end.

Definition Errorf (msg : string) : error := PlainError msg.

(** Modelled from the spec: [controller.RequeueErrorf], which is defined
    in pkg/controller and not in the file embedded here.  The spec calls its result "a retryable error
    signaling the caller's control loop to requeue"; the format string is
    already expanded by the caller. *)
Definition RequeueErrorf (msg : string) : error := RequeueError msg.

Definition is_requeue (e : error) : bool :=
  match e with RequeueError _ => true | PlainError _ => false end.

(** Outcome of a Go function: a value, a returned error, or a panic. *)
Inductive res (A : Type) :=
  | Ok (a : A)
  | Err (e : error)
  | Panic (msg : string).
Arguments Ok {A} a.
Arguments Err {A} e.
Arguments Panic {A} msg.

(** ** Cluster objects (pkg/apis/pingcap/v1alpha1)

    The type declarations are not part of this file.  A cluster object is
    represented by the fields the manager reads and, for each method it
    calls, by the value that method returns on the object. *)

Module ComponentAccessor.
(** The [v1alpha1.ComponentAccessor] interface: one field per method. *)
Record t := mk
  { Env : list EnvVar.t;
    EnvFrom : list string;
    ImagePullPolicy : string;
    AdditionalVolumeMounts : list VolumeMount.t;
    AdditionalContainers : list Container.t;
    InitContainers : list Container.t;
    AdditionalVolumes : list Volume.t;
    Labels : gmap string string;
    Annotations : option (gmap string string);
    BuildPodSpec : PodSpec.t }.
End ComponentAccessor.

Module PDSpec.
Record t := mk { BaseImage : string }.
End PDSpec.

Module DiscoverySpec.
Record t := mk { ResourceRequirements : ResourceRequirements.t }.
End DiscoverySpec.

Module TidbClusterSpec.
Record t := mk
  { PD : option PDSpec.t; PreferIPv6 : bool; Discovery : DiscoverySpec.t }.
End TidbClusterSpec.

Module TidbCluster.
Record t := mk
  { Meta : ObjectMeta.t;
    Spec : TidbClusterSpec.t;
    (* methods *)
    GetInstanceName : string;
    AcrossK8s : bool;
    Timezone : string;
    BaseDiscoverySpec : ComponentAccessor.t;
    IsTLSClusterEnabled : bool;
    WithoutLocalPD : bool }.
Definition GetName (c : t) : string := ObjectMeta.Name (Meta c).
Definition GetNamespace (c : t) : string := ObjectMeta.Namespace (Meta c).
End TidbCluster.

Module DMClusterSpec.
Record t := mk { Discovery : DiscoverySpec.t }.
End DMClusterSpec.

Module DMCluster.
Record t := mk
  { Meta : ObjectMeta.t;
    Spec : DMClusterSpec.t;
    (* methods *)
    GetInstanceName : string;
    Timezone : string;
    BaseDiscoverySpec : ComponentAccessor.t }.
Definition GetName (c : t) : string := ObjectMeta.Name (Meta c).
Definition GetNamespace (c : t) : string := ObjectMeta.Namespace (Meta c).
End DMCluster.

(** A [client.Object] interface value, by dynamic type.  [NilObject] is
    the nil interface; [OtherObject] is a value of any other type that
    implements [client.Object], with the name [%T] prints for it.  Every
    non-nil case carries an [ObjectMeta] because [client.Object] embeds
    [metav1.Object].  Pointers stored in the interface are not nil. *)
Inductive Object :=
  | NilObject
  | TidbClusterObject (cluster : TidbCluster.t)
  | DMClusterObject (cluster : DMCluster.t)
  | OtherObject (typeName : string) (meta : ObjectMeta.t).

(** What [fmt]'s verb [%T] prints. *)
Definition typeName (obj : Object) : string :=
  match obj with
  | NilObject => "<nil>"
  | TidbClusterObject _ => "*v1alpha1.TidbCluster"
  | DMClusterObject _ => "*v1alpha1.DMCluster"
  | OtherObject n _ => n
  end.

(** The type assertion [obj.(metav1.Object)]: it fails exactly on the nil
    interface. *)
Definition asMetaObject (obj : Object) : option Object :=
  match obj with
  | NilObject => None
  | _ => Some obj
  end.

(** ** Collaborators

    Constants and functions of this repository that
    [tidb_discovery_manager.go] uses and that live in other files; they
    are parameters of the development.  [json_Marshal] is
    [encoding/json.Marshal] at type [corev1.PodSpec]. *)

Class Externals := {
  (* pkg/apis/pingcap/v1alpha1 *)
  v1alpha1_GroupName : string;
  TiDBClusterName : string;
  DMClusterName : string;
  (* pkg/apis/label; a [label.Label] is a string map *)
  label_New : gmap string string;
  label_NewDM : gmap string string;
  label_Instance : gmap string string → string → gmap string string;
  label_Discovery : gmap string string → gmap string string;
  label_Labels : gmap string string → gmap string string;
  label_LabelSelector : gmap string string → LabelSelector.t;
  InstanceLabelKey : string;
  PDLabelVal : string;
  (* pkg/controller *)
  DiscoveryMemberName : string → string;
  LastAppliedPodTemplate : string;
  ContainerResource : ResourceRequirements.t → ResourceRequirements.t;
  GetOwnerRef : TidbCluster.t → OwnerReference.t;
  GetDMOwnerRef : DMCluster.t → OwnerReference.t;
  (* pkg/util *)
  ClusterTLSSecretName : string → string → string;
  (* pkg/manager/member *)
  MergePatchContainers :
    list Container.t → list Container.t → list Container.t + error;
  IPv6FamilyPolicy : string;
  IPv6Families : list string;
  (* encoding/json *)
  json_Marshal : PodSpec.t → string + error
}.

(** The [TypedControl] collaborator acts on the cluster; [W] is the state
    of that world.  Each operation takes the owning object and the desired
    resource and returns the resource as applied, or an error.  The
    operations are taken to return, to answer with a resource or with an
    error and never with neither, and to leave alone the resource handed
    to them: in Go the Role, the ServiceAccount and the RoleBinding share
    one label map and one owner-reference slice with the metadata they
    were made from, and here each holds its own copy. *)
Record TypedControlInterface (W : Type) := {
  CreateOrUpdateRole : Object → Role.t → W → W * (Role.t + error);
  CreateOrUpdateServiceAccount :
    Object → ServiceAccount.t → W → W * (ServiceAccount.t + error);
  CreateOrUpdateRoleBinding :
    Object → RoleBinding.t → W → W * (RoleBinding.t + error);
  CreateOrUpdateDeployment :
    Object → Deployment.t → W → W * (Deployment.t + error);
  CreateOrUpdateService :
    Object → Service.t → W → W * (Service.t + error)
}.
Arguments CreateOrUpdateRole {W}.
Arguments CreateOrUpdateServiceAccount {W}.
Arguments CreateOrUpdateRoleBinding {W}.
Arguments CreateOrUpdateDeployment {W}.
Arguments CreateOrUpdateService {W}.

Module CLIConfig.
Record t := mk { TiDBDiscoveryImage : string }.
End CLIConfig.

Module Dependencies.
Record t (W : Type) := mk
  { TypedControl : TypedControlInterface W; CLIConfig : CLIConfig.t }.
Arguments mk {W}.
Arguments TypedControl {W}.
Arguments CLIConfig {W}.
End Dependencies.

Record realTidbDiscoveryManager (W : Type) := NewTidbDiscoveryManager
  { deps : Dependencies.t W }.
Arguments NewTidbDiscoveryManager {W}.
Arguments deps {W}.

(** What a [Reconcile] call can change: the world behind [TypedControl]
    and the lines written through [klog]. *)
Record state (W : Type) := mkState { world : W; klog : list string }.
Arguments mkState {W}.
Arguments world {W}.
Arguments klog {W}.

(** ** Helpers of pkg/util *)

Definition env_named (n : string) (e : EnvVar.t) : bool :=
  String.eqb (EnvVar.Name e) n.

Definition env_has (n : string) (a : list EnvVar.t) : bool :=
  existsb (env_named n) a.

(** One write into an environment list: an entry of the same name is
    overwritten where it stands, a new name is appended. *)
Definition env_write (a : list EnvVar.t) (e : EnvVar.t) : list EnvVar.t :=
  if env_has (EnvVar.Name e) a
  then map (fun x => if env_named (EnvVar.Name e) x then e else x) a
  else a ++ [e].

(** Modelled from the spec: [util.AppendEnv], which is defined in pkg/util
    and not in the file embedded here.  Spec section 6: "EnvMerge(base,
    overrides) - override wins by variable name"; section 4.4 step 2:
    "append-with-override semantics: last write for a given key wins".
    The overrides are written into the base one after the other. *)
Definition AppendEnv (a b : list EnvVar.t) : list EnvVar.t :=
  fold_left env_write b a.

(** Modelled from the spec: [util.CombineStringMap], which is defined in
    pkg/util and not in the file embedded here.  Spec section 4.4 step 7:
    the first map "combined with" the second, and the second map's "values
    win on key collision".  ([∪] on [gmap] prefers its left operand.) *)
Definition CombineStringMap (a b : gmap string string) : gmap string string :=
  b ∪ a.

Definition PdTlsCertPath : string := "/var/lib/pd-tls".

Section Manager.
Context `{Ext : Externals}.

(** Modelled from the spec: [SetServiceWhenPreferIPv6], which is defined
    elsewhere in package member.  Spec section 6: "IPv6Adjust(service) ->
    service - mutates IP-family fields in place"; the values written are
    the collaborator's and are parameters here. *)
Definition SetServiceWhenPreferIPv6 (svc : Service.t) : Service.t :=
  let sp := Service.Spec svc in
  Service.mk (Service.Meta svc)
    (ServiceSpec.mk (ServiceSpec.Type_ sp) (ServiceSpec.Ports sp)
       (ServiceSpec.Selector sp) (Some IPv6FamilyPolicy) IPv6Families).

(** ** [getDiscoveryMeta] (lines 301-331) *)
Definition getDiscoveryMeta (obj : Object) (nameFunc : string → string)
  : res (ObjectMeta.t * gmap string string) :=
  let build name namespace ownerRef discoveryLabel :=
    let objMeta :=
      {| ObjectMeta.Name := nameFunc name;
         ObjectMeta.Namespace := namespace;
         ObjectMeta.Labels := discoveryLabel;
         ObjectMeta.Annotations := None;
         ObjectMeta.OwnerReferences := [ownerRef] |} in
    Ok (objMeta, discoveryLabel) in
  match obj with
  | TidbClusterObject cluster =>
      let name := TidbCluster.GetName cluster in
      let instanceName := TidbCluster.GetInstanceName cluster in
      let ownerRef := GetOwnerRef cluster in
      let discoveryLabel :=
        label_Discovery (label_Instance label_New instanceName) in
      build name (TidbCluster.GetNamespace cluster) ownerRef discoveryLabel
  | DMClusterObject cluster =>
      let name := DMCluster.GetName cluster +:+ "-dm" in
      let instanceName := DMCluster.GetInstanceName cluster +:+ "-dm" in
      let ownerRef := GetDMOwnerRef cluster in
      let discoveryLabel :=
        label_Discovery (label_Instance label_NewDM instanceName) in
      build name (DMCluster.GetNamespace cluster) ownerRef discoveryLabel
  | _ => Panic ("unsupported type " +:+ typeName obj +:+ " for discovery meta")
  end.

(** ** [getTidbDiscoveryService] (lines 140-167) *)
Definition getTidbDiscoveryService
    (obj : Object) (deploy : Deployment.t) (preferIPv6 : bool)
  : res Service.t :=
  match getDiscoveryMeta obj DiscoveryMemberName with
  | Ok (meta, _) =>
      let svc :=
        {| Service.Meta := meta;
           Service.Spec :=
             {| ServiceSpec.Type_ := corev1.ServiceTypeClusterIP;
                ServiceSpec.Ports :=
                  [ {| ServicePort.Name := "discovery";
                       ServicePort.Port := 10261;
                       ServicePort.TargetPort := FromInt 10261;
                       ServicePort.Protocol := corev1.ProtocolTCP |};
                    {| ServicePort.Name := "proxy";
                       ServicePort.Port := 10262;
                       ServicePort.TargetPort := FromInt 10262;
                       ServicePort.Protocol := corev1.ProtocolTCP |} ];
                ServiceSpec.Selector :=
                  ObjectMeta.Labels
                    (PodTemplateSpec.Meta
                       (DeploymentSpec.Template (Deployment.Spec deploy)));
                ServiceSpec.IPFamilyPolicy := None;
                ServiceSpec.IPFamilies := [] |} |} in
      Ok (if preferIPv6 then SetServiceWhenPreferIPv6 svc else svc)
  | Err e => Err e
  | Panic msg => Panic msg
  end.

(** ** [getTidbDiscoveryDeployment] (lines 169-299) *)

(** Lines 194-212: the environment of the discovery container. *)
Definition discoveryEnvs
    (timezone name : string) (baseSpec : ComponentAccessor.t)
  : list EnvVar.t :=
  let envs :=
    [ {| EnvVar.Name := "MY_POD_NAMESPACE";
         EnvVar.Value := "";
         EnvVar.ValueFrom :=
           Some {| EnvVarSource.FieldRef := Some "metadata.namespace" |} |};
      {| EnvVar.Name := "TZ";
         EnvVar.Value := timezone;
         EnvVar.ValueFrom := None |};
      {| EnvVar.Name := "TC_NAME";
         EnvVar.Value := name;
         EnvVar.ValueFrom := None |} ] in
  AppendEnv envs (ComponentAccessor.Env baseSpec).

(** Lines 213-238: the container appended to the pod's container list. *)
Definition discoveryContainer
    (image : string) (resources : ResourceRequirements.t)
    (timezone name : string) (baseSpec : ComponentAccessor.t)
  : Container.t :=
  let envs := discoveryEnvs timezone name baseSpec in
  let volMounts := [] ++ ComponentAccessor.AdditionalVolumeMounts baseSpec in
  {| Container.Name := "discovery";
     Container.Resources := ContainerResource resources;
     Container.Command := ["/usr/local/bin/tidb-discovery"];
     Container.Image := image;
     Container.ImagePullPolicy := ComponentAccessor.ImagePullPolicy baseSpec;
     Container.Env := envs;
     Container.EnvFrom := ComponentAccessor.EnvFrom baseSpec;
     Container.VolumeMounts := volMounts;
     Container.Ports :=
       [ {| ContainerPort.Name := "discovery";
            ContainerPort.Protocol := corev1.ProtocolTCP;
            ContainerPort.Port := 10261 |};
         {| ContainerPort.Name := "proxy";
            ContainerPort.Protocol := corev1.ProtocolTCP;
            ContainerPort.Port := 10262 |} ] |}.

(** Lines 252-259, 260-264 and 265-268: what the TLS branch appends. *)
Definition pdTLSVolume (name : string) : Volume.t :=
  {| Volume.Name := "pd-tls";
     Volume.Source :=
       {| VolumeSource.Secret := Some (ClusterTLSSecretName name PDLabelVal);
          VolumeSource.Other := None |} |}.

Definition pdTLSVolumeMount : VolumeMount.t :=
  {| VolumeMount.Name := "pd-tls";
     VolumeMount.ReadOnly := true;
     VolumeMount.MountPath := PdTlsCertPath |}.

Definition tlsEnabledEnv : EnvVar.t :=
  {| EnvVar.Name := "TC_TLS_ENABLED";
     EnvVar.Value := "true";
     EnvVar.ValueFrom := None |}.

(** The condition of line 251; the type assertion fails on a DMCluster. *)
Definition tlsBranch (obj : Object) : bool :=
  match obj with
  | TidbClusterObject tc =>
      TidbCluster.IsTLSClusterEnabled tc && negb (TidbCluster.WithoutLocalPD tc)
  | _ => false
  end.

(** Lines 251-269.  Indexing [Containers[0]] of an empty slice panics. *)
Definition tlsAugment (obj : Object) (name : string) (podSpec : PodSpec.t)
  : res PodSpec.t :=
  if tlsBranch obj then
    let podSpec :=
      PodSpec.set_Volumes (PodSpec.Volumes podSpec ++ [pdTLSVolume name])
        podSpec in
    match PodSpec.Containers podSpec with
    | [] => Panic "runtime error: index out of range [0] with length 0"
    | c0 :: rest =>
        let c0 :=
          Container.set_VolumeMounts
            (Container.VolumeMounts c0 ++ [pdTLSVolumeMount]) c0 in
        let c0 := Container.set_Env (Container.Env c0 ++ [tlsEnabledEnv]) c0 in
        Ok (PodSpec.set_Containers (c0 :: rest) podSpec)
    end
  else Ok podSpec.

(** Lines 177-190: the per-variant selection. *)
Definition discoveryInputs (obj : Object)
  : res (ResourceRequirements.t * string * ComponentAccessor.t * string) :=
  match obj with
  | TidbClusterObject cluster =>
      Ok (DiscoverySpec.ResourceRequirements
            (TidbClusterSpec.Discovery (TidbCluster.Spec cluster)),
          TidbCluster.Timezone cluster,
          TidbCluster.BaseDiscoverySpec cluster,
          TidbCluster.GetName cluster)
  | DMClusterObject cluster =>
      Ok (DiscoverySpec.ResourceRequirements
            (DMClusterSpec.Discovery (DMCluster.Spec cluster)),
          DMCluster.Timezone cluster,
          DMCluster.BaseDiscoverySpec cluster,
          DMCluster.GetName cluster)
  | _ => Panic ("unsupported type " +:+ typeName obj +:+ " for discovery meta")
  end.

Definition getTidbDiscoveryDeployment {W}
    (m : realTidbDiscoveryManager W) (obj : Object) : res Deployment.t :=
  match discoveryInputs obj with
  | Ok (resources, timezone, baseSpec, objName) =>
    let podSpec := ComponentAccessor.BuildPodSpec baseSpec in
    match getDiscoveryMeta obj DiscoveryMemberName with
    | Ok (meta, l) =>
      let image :=
        CLIConfig.TiDBDiscoveryImage (Dependencies.CLIConfig (deps m)) in
      let podSpec :=
        PodSpec.set_Containers
          (PodSpec.Containers podSpec ++
           [discoveryContainer image resources timezone objName baseSpec])
          podSpec in
      match MergePatchContainers (PodSpec.Containers podSpec)
              (ComponentAccessor.AdditionalContainers baseSpec) with
      | inr err =>
          Err (Errorf ("failed to merge containers spec for Discovery of ["
                       +:+ ObjectMeta.Namespace meta +:+ "/"
                       +:+ ObjectMeta.Name meta +:+ "], error: "
                       +:+ Error err))
      | inl containers =>
        let podSpec := PodSpec.set_Containers containers podSpec in
        let podSpec :=
          PodSpec.set_InitContainers
            (PodSpec.InitContainers podSpec ++
             ComponentAccessor.InitContainers baseSpec) podSpec in
        let podSpec :=
          PodSpec.set_ServiceAccountName (ObjectMeta.Name meta) podSpec in
        let podSpec :=
          PodSpec.set_Volumes
            (PodSpec.Volumes podSpec ++
             ComponentAccessor.AdditionalVolumes baseSpec) podSpec in
        match tlsAugment obj objName podSpec with
        | Ok podSpec =>
          let podLabels :=
            CombineStringMap (label_Labels l)
              (ComponentAccessor.Labels baseSpec) in
          let podAnnotations := ComponentAccessor.Annotations baseSpec in
          let spec :=
            {| DeploymentSpec.Strategy := appsv1.RecreateDeploymentStrategyType;
               DeploymentSpec.Replicas := Some 1%Z;
               DeploymentSpec.Selector := label_LabelSelector l;
               DeploymentSpec.Template :=
                 {| PodTemplateSpec.Meta :=
                      {| ObjectMeta.Name := "";
                         ObjectMeta.Namespace := "";
                         ObjectMeta.Labels := podLabels;
                         ObjectMeta.Annotations := podAnnotations;
                         ObjectMeta.OwnerReferences := [] |};
                    PodTemplateSpec.Spec := podSpec |} |} in
          match json_Marshal
                  (PodTemplateSpec.Spec (DeploymentSpec.Template spec)) with
          | inr err => Err err
          | inl b =>
            let annotations :=
              match ObjectMeta.Annotations meta with
              | None => ∅
              | Some a => a
              end in
            Ok {| Deployment.Meta :=
                    {| ObjectMeta.Name := ObjectMeta.Name meta;
                       ObjectMeta.Namespace := ObjectMeta.Namespace meta;
                       ObjectMeta.Labels := ObjectMeta.Labels meta;
                       ObjectMeta.Annotations :=
                         Some (<[LastAppliedPodTemplate := b]> annotations);
                       ObjectMeta.OwnerReferences :=
                         ObjectMeta.OwnerReferences meta |};
                  Deployment.Spec := spec |}
          end
        | Err e => Err e
        | Panic msg => Panic msg
        end
      end
    | Err e => Err e
    | Panic msg => Panic msg
    end
  | Err e => Err e
  | Panic msg => Panic msg
  end.

(** ** [Reconcile] (lines 52-138) *)

(** Lines 89-99, 103-105 and 109-120: the three RBAC resources. *)
Definition discoveryRole (meta : ObjectMeta.t) (clusterPolicyRule : PolicyRule.t)
  : Role.t :=
  {| Role.Meta := meta;
     Role.Rules :=
       [ clusterPolicyRule;
         {| PolicyRule.APIGroups := [corev1.GroupName];
            PolicyRule.Resources := ["secrets"];
            PolicyRule.ResourceNames := [];
            PolicyRule.Verbs := ["get"; "list"; "watch"] |} ] |}.

Definition discoveryServiceAccount (meta : ObjectMeta.t) : ServiceAccount.t :=
  {| ServiceAccount.Meta := meta |}.

Definition discoveryRoleBinding (meta : ObjectMeta.t) : RoleBinding.t :=
  {| RoleBinding.Meta := meta;
     RoleBinding.Subjects :=
       [ {| Subject.Kind := rbacv1.ServiceAccountKind;
            Subject.Name := ObjectMeta.Name meta |} ];
     RoleBinding.Ref :=
       {| RoleRef.Kind := "Role";
          RoleRef.Name := ObjectMeta.Name meta;
          RoleRef.APIGroup := rbacv1.GroupName |} |}.

(** Lines 87-137: the five resources are built and applied in turn. *)
Definition reconcileResources {W}
    (m : realTidbDiscoveryManager W) (obj metaObj : Object)
    (clusterPolicyRule : PolicyRule.t) (preferIPv6 : bool) (s : state W)
  : state W * res unit :=
  let ctl := Dependencies.TypedControl (deps m) in
  let upd w := mkState w (klog s) in
  match getDiscoveryMeta metaObj DiscoveryMemberName with
  | Ok (meta, _) =>
    match CreateOrUpdateRole ctl obj
            (discoveryRole meta clusterPolicyRule) (world s) with
    | (w, inr err) =>
        (upd w, Err (RequeueErrorf
           ("error creating or updating discovery role: " +:+ Error err)))
    | (w, inl _) =>
    match CreateOrUpdateServiceAccount ctl obj
            (discoveryServiceAccount meta) w with
    | (w, inr err) =>
        (upd w, Err (RequeueErrorf
           ("error creating or updating discovery serviceaccount: "
            +:+ Error err)))
    | (w, inl _) =>
    match CreateOrUpdateRoleBinding ctl obj (discoveryRoleBinding meta) w with
    | (w, inr err) =>
        (upd w, Err (RequeueErrorf
           ("error creating or updating discovery rolebinding: "
            +:+ Error err)))
    | (w, inl _) =>
    match getTidbDiscoveryDeployment m metaObj with
    | Err err =>
        (upd w, Err (RequeueErrorf
           ("error generating discovery deployment: " +:+ Error err)))
    | Panic msg => (upd w, Panic msg)
    | Ok d =>
    match CreateOrUpdateDeployment ctl obj d w with
    | (w, inr err) =>
        (upd w, Err (RequeueErrorf
           ("error creating or updating discovery service: " +:+ Error err)))
    | (w, inl deploy) =>
    match getTidbDiscoveryService metaObj deploy preferIPv6 with
    | Ok svc =>
    match CreateOrUpdateService ctl obj svc w with
    | (w, inr err) =>
        (upd w, Err (RequeueErrorf
           ("error creating or updating discovery service: " +:+ Error err)))
    | (w, inl _) => (upd w, Ok tt)
    end
    | Err e => (upd w, Err e)
    | Panic msg => (upd w, Panic msg)
    end end end end end end
  | Err e => (s, Err e)
  | Panic msg => (s, Panic msg)
  end.

Definition Reconcile {W}
    (m : realTidbDiscoveryManager W) (obj : Object) (s : state W)
  : state W * res unit :=
  match asMetaObject obj with
  | None => (s, Err (Errorf (typeName obj +:+ " is not a metav1.Object")))
  | Some metaObj =>
    match obj with
    | TidbClusterObject cluster =>
        (* If PD is not specified return *)
        if bool_decide (TidbClusterSpec.PD (TidbCluster.Spec cluster) = None)
           && negb (TidbCluster.AcrossK8s cluster)
        then (s, Ok tt)
        else
          let clusterPolicyRule :=
            {| PolicyRule.APIGroups := [v1alpha1_GroupName];
               PolicyRule.Resources := [TiDBClusterName];
               PolicyRule.ResourceNames := [TidbCluster.GetName cluster];
               PolicyRule.Verbs := ["get"] |} in
          let preferIPv6 :=
            TidbClusterSpec.PreferIPv6 (TidbCluster.Spec cluster) in
          reconcileResources m obj metaObj clusterPolicyRule preferIPv6 s
    | DMClusterObject cluster =>
        let clusterPolicyRule :=
          {| PolicyRule.APIGroups := [v1alpha1_GroupName];
             PolicyRule.Resources := [DMClusterName];
             PolicyRule.ResourceNames := [DMCluster.GetName cluster];
             PolicyRule.Verbs := ["get"] |} in
        reconcileResources m obj metaObj clusterPolicyRule false s
    | _ =>
        (mkState (world s)
           (klog s ++
            ["unsupported type " +:+ typeName obj +:+ " for discovery"]),
         Ok tt)
    end
  end.

End Manager.

(** ** [FakeDiscoveryManager] (lines 333-350)

    The fake keeps one field, the error to answer with; [nil] is [None].
    [SetReconcileError] overwrites the field of the receiver, so it
    returns the fake as it is afterwards; [Reconcile] reads it. *)

Module Fake.
Record FakeDiscoveryManager := mk { err : option error }.

Definition NewFakeDiscoveryManger : FakeDiscoveryManager := mk None.

Definition SetReconcileError (e : option error) (m : FakeDiscoveryManager)
  : FakeDiscoveryManager :=
  mk e.

Definition Reconcile (m : FakeDiscoveryManager) (_ : Object)
  : FakeDiscoveryManager * option error :=
  match err m with
  | Some e => (m, Some e)
  | None => (m, None)
  end.
End Fake.

(** ** Observing the collaborator

    [recording inner] behaves like [inner] and keeps a journal of every
    operation: the desired resource it was given and what it answered.
    Statements about which operations [Reconcile] invokes, and in which
    order, are statements about this journal, for every [inner]. *)

Inductive Event :=
  | ApplyRole (desired : Role.t) (answer : Role.t + error)
  | ApplyServiceAccount
      (desired : ServiceAccount.t) (answer : ServiceAccount.t + error)
  | ApplyRoleBinding (desired : RoleBinding.t) (answer : RoleBinding.t + error)
  | ApplyDeployment (desired : Deployment.t) (answer : Deployment.t + error)
  | ApplyService (desired : Service.t) (answer : Service.t + error).

Inductive Kind := KRole | KServiceAccount | KRoleBinding | KDeployment | KService.

Definition kind (ev : Event) : Kind :=
  match ev with
  | ApplyRole _ _ => KRole
  | ApplyServiceAccount _ _ => KServiceAccount
  | ApplyRoleBinding _ _ => KRoleBinding
  | ApplyDeployment _ _ => KDeployment
  | ApplyService _ _ => KService
  end.

Definition failure {A} (answer : A + error) : option error :=
  match answer with inl _ => None | inr e => Some e end.

(** The error an operation answered with, if it failed. *)
Definition failed (ev : Event) : option error :=
  match ev with
  | ApplyRole _ a => failure a
  | ApplyServiceAccount _ a => failure a
  | ApplyRoleBinding _ a => failure a
  | ApplyDeployment _ a => failure a
  | ApplyService _ a => failure a
  end.

Definition journalled {W A} (mkEvent : A + error → Event)
    (op : W → W * (A + error)) (jw : list Event * W)
  : (list Event * W) * (A + error) :=
  let '(w, answer) := op (snd jw) in
  ((fst jw ++ [mkEvent answer], w), answer).

Definition recording {W} (inner : TypedControlInterface W)
  : TypedControlInterface (list Event * W) :=
  {| CreateOrUpdateRole obj r :=
       journalled (ApplyRole r) (CreateOrUpdateRole inner obj r);
     CreateOrUpdateServiceAccount obj sa :=
       journalled (ApplyServiceAccount sa)
         (CreateOrUpdateServiceAccount inner obj sa);
     CreateOrUpdateRoleBinding obj rb :=
       journalled (ApplyRoleBinding rb)
         (CreateOrUpdateRoleBinding inner obj rb);
     CreateOrUpdateDeployment obj d :=
       journalled (ApplyDeployment d) (CreateOrUpdateDeployment inner obj d);
     CreateOrUpdateService obj svc :=
       journalled (ApplyService svc) (CreateOrUpdateService inner obj svc) |}.

(** A manager whose collaborator is journalled, and the journal and the
    result of one [Reconcile] call that starts from an empty journal. *)
Definition recordingManager {W}
    (inner : TypedControlInterface W) (cfg : CLIConfig.t)
  : realTidbDiscoveryManager (list Event * W) :=
  NewTidbDiscoveryManager (Dependencies.mk (recording inner) cfg).

Definition run `{Ext : Externals} {W}
    (inner : TypedControlInterface W) (cfg : CLIConfig.t)
    (obj : Object) (w : W)
  : list Event * res unit :=
  let '(s, r) :=
    Reconcile (recordingManager inner cfg) obj (mkState ([], w) []) in
  (fst (world s), r).

(** ** Contracts of the collaborators *)

(** [MergePatchContainers] merges by container name: the containers of
    [base] stay where they are, under their names (patched or not), and
    containers that only the patches name come after them. *)
Definition MergeKeepsBase `{Ext : Externals} : Prop :=
  ∀ base patches out,
    MergePatchContainers base patches = inl out →
    Container.Name <$> take (length base) out = Container.Name <$> base.


(** The label builder records the instance name under [InstanceLabelKey],
    and marking the label set as "discovery" leaves that entry alone. *)
Definition LabelRecordsInstance `{Ext : Externals} : Prop :=
  ∀ l n, label_Discovery (label_Instance l n) !! InstanceLabelKey = Some n.

(** Known variants, and the early return of lines 64-67. *)
Definition knownVariant (obj : Object) : bool :=
  match obj with
  | TidbClusterObject _ | DMClusterObject _ => true
  | _ => false
  end.

Definition discoveryNeeded (obj : Object) : bool :=
  match obj with
  | TidbClusterObject tc =>
      negb (bool_decide (TidbClusterSpec.PD (TidbCluster.Spec tc) = None)
            && negb (TidbCluster.AcrossK8s tc))
  | DMClusterObject _ => true
  | _ => false
  end.

(** The per-variant base spec, where there is one. *)
Definition baseSpecOf (obj : Object) : option ComponentAccessor.t :=
  match obj with
  | TidbClusterObject tc => Some (TidbCluster.BaseDiscoverySpec tc)
  | DMClusterObject dc => Some (DMCluster.BaseDiscoverySpec dc)
  | _ => None
  end.

(** ** A reference instantiation

    Concrete collaborators, in the style of the fake controls used by the
    repository's unit tests; the theorems below are exercised on them. *)

Module Reference.

Definition patchContainer (c p : Container.t) : Container.t :=
  {| Container.Name := Container.Name c;
     Container.Resources := Container.Resources p;
     Container.Command :=
       match Container.Command p with [] => Container.Command c | l => l end;
     Container.Image :=
       if String.eqb (Container.Image p) "" then Container.Image c
       else Container.Image p;
     Container.ImagePullPolicy := Container.ImagePullPolicy c;
     Container.Env := AppendEnv (Container.Env c) (Container.Env p);
     Container.EnvFrom := Container.EnvFrom c;
     Container.VolumeMounts :=
       Container.VolumeMounts c ++ Container.VolumeMounts p;
     Container.Ports := Container.Ports c |}.

Definition named (n : string) (c : Container.t) : bool :=
  String.eqb (Container.Name c) n.

Definition mergeByName (base patches : list Container.t)
  : list Container.t + error :=
  inl (map (fun c =>
              match find (named (Container.Name c)) patches with
              | Some p => patchContainer c p
              | None => c
              end) base
       ++ filter (fun p => negb (existsb (named (Container.Name p)) base))
            patches).

Definition marshal (p : PodSpec.t) : string + error :=
  inl ("{containers:["
       +:+ String.concat "," (Container.Name <$> PodSpec.Containers p)
       +:+ "],volumes:["
       +:+ String.concat "," (Volume.Name <$> PodSpec.Volumes p)
       +:+ "],serviceAccountName:" +:+ PodSpec.ServiceAccountName p
       +:+ "," +:+ PodSpec.Scheduling p +:+ "}").

#[export] Instance ext : Externals :=
  {| v1alpha1_GroupName := "pingcap.com";
     TiDBClusterName := "tidbclusters";
     DMClusterName := "dmclusters";
     label_New :=
       {[ "app.kubernetes.io/name" := "tidb-cluster";
          "app.kubernetes.io/managed-by" := "tidb-operator" ]};
     label_NewDM :=
       {[ "app.kubernetes.io/name" := "dm-cluster";
          "app.kubernetes.io/managed-by" := "tidb-operator" ]};
     label_Instance l n := <["app.kubernetes.io/instance" := n]> l;
     label_Discovery l := <["app.kubernetes.io/component" := "discovery"]> l;
     label_Labels l := l;
     label_LabelSelector l := LabelSelector.mk l;
     InstanceLabelKey := "app.kubernetes.io/instance";
     PDLabelVal := "pd";
     DiscoveryMemberName n := n +:+ "-discovery";
     LastAppliedPodTemplate := "pingcap.com/last-applied-podtemplate";
     ContainerResource r := r;
     GetOwnerRef tc :=
       OwnerReference.mk "pingcap.com/v1alpha1" "TidbCluster"
         (TidbCluster.GetName tc) "" true true;
     GetDMOwnerRef dc :=
       OwnerReference.mk "pingcap.com/v1alpha1" "DMCluster"
         (DMCluster.GetName dc) "" true true;
     ClusterTLSSecretName n c := n +:+ "-" +:+ c +:+ "-cluster-secret";
     MergePatchContainers := mergeByName;
     IPv6FamilyPolicy := "PreferDualStack";
     IPv6Families := ["IPv6"];
     json_Marshal := marshal |}.

Definition noResources : ResourceRequirements.t :=
  ResourceRequirements.mk ∅ ∅.

Definition emptyPodSpec : PodSpec.t := PodSpec.mk [] [] [] "" "".

Definition plainAccessor : ComponentAccessor.t :=
  {| ComponentAccessor.Env := [];
     ComponentAccessor.EnvFrom := [];
     ComponentAccessor.ImagePullPolicy := "IfNotPresent";
     ComponentAccessor.AdditionalVolumeMounts := [];
     ComponentAccessor.AdditionalContainers := [];
     ComponentAccessor.InitContainers := [];
     ComponentAccessor.AdditionalVolumes := [];
     ComponentAccessor.Labels := ∅;
     ComponentAccessor.Annotations := None;
     ComponentAccessor.BuildPodSpec := emptyPodSpec |}.

Definition metaNamed (name : string) : ObjectMeta.t :=
  ObjectMeta.mk name "ns" ∅ None [].

(** A TidbCluster "foo" with a PD member; [tls] switches cluster TLS. *)
Definition tcFoo (tls : bool) : TidbCluster.t :=
  {| TidbCluster.Meta := metaNamed "foo";
     TidbCluster.Spec :=
       TidbClusterSpec.mk (Some (PDSpec.mk "pingcap/pd")) false
         (DiscoverySpec.mk noResources);
     TidbCluster.GetInstanceName := "foo";
     TidbCluster.AcrossK8s := false;
     TidbCluster.Timezone := "UTC";
     TidbCluster.BaseDiscoverySpec := plainAccessor;
     TidbCluster.IsTLSClusterEnabled := tls;
     TidbCluster.WithoutLocalPD := false |}.

(** A DMCluster "foo" in the same namespace. *)
Definition dcFoo : DMCluster.t :=
  {| DMCluster.Meta := metaNamed "foo";
     DMCluster.Spec := DMClusterSpec.mk (DiscoverySpec.mk noResources);
     DMCluster.GetInstanceName := "foo";
     DMCluster.Timezone := "UTC";
     DMCluster.BaseDiscoverySpec := plainAccessor |}.

(** A control over a world that counts the operations applied so far; it
    answers with the desired resource, except that operation number
    [failAt] (from 0) fails, and an applied Deployment gets the extra
    pod-template label [injected]. *)
Definition inject (injected : option (string * string)) (d : Deployment.t)
  : Deployment.t :=
  match injected with
  | None => d
  | Some (k, v) =>
      let sp := Deployment.Spec d in
      let t := DeploymentSpec.Template sp in
      let tm := PodTemplateSpec.Meta t in
      Deployment.mk (Deployment.Meta d)
        (DeploymentSpec.mk (DeploymentSpec.Strategy sp)
           (DeploymentSpec.Replicas sp) (DeploymentSpec.Selector sp)
           (PodTemplateSpec.mk
              (ObjectMeta.mk (ObjectMeta.Name tm) (ObjectMeta.Namespace tm)
                 (<[k := v]> (ObjectMeta.Labels tm))
                 (ObjectMeta.Annotations tm) (ObjectMeta.OwnerReferences tm))
              (PodTemplateSpec.Spec t)))
  end.

Definition answer {A} (failAt : option nat) (a : A) (n : nat)
  : nat * (A + error) :=
  (S n, if bool_decide (failAt = Some n)
        then inr (PlainError "connection refused") else inl a).

Definition control (failAt : option nat) (injected : option (string * string))
  : TypedControlInterface nat :=
  {| CreateOrUpdateRole _ r := answer failAt r;
     CreateOrUpdateServiceAccount _ sa := answer failAt sa;
     CreateOrUpdateRoleBinding _ rb := answer failAt rb;
     CreateOrUpdateDeployment _ d := answer failAt (inject injected d);
     CreateOrUpdateService _ svc := answer failAt svc |}.

Definition cfg : CLIConfig.t := CLIConfig.mk "pingcap/tidb-operator:latest".

Definition emptyDeployment : Deployment.t :=
  Deployment.mk (metaNamed "")
    (DeploymentSpec.mk "" None (LabelSelector.mk ∅)
       (PodTemplateSpec.mk (metaNamed "") emptyPodSpec)).

(** The Deployment of a build that succeeded. *)
Definition built (r : res Deployment.t) : Deployment.t :=
  match r with Ok d => d | _ => emptyDeployment end.

Definition manager : realTidbDiscoveryManager nat :=
  NewTidbDiscoveryManager (Dependencies.mk (control None None) cfg).

End Reference.

(** * Vocabulary of the properties *)

(** The pod spec as it stands after line 250, before the TLS branch. *)
Definition podSpecBeforeTLS `{Ext : Externals}
    (baseSpec : ComponentAccessor.t) (saName : string)
    (containers : list Container.t) : PodSpec.t :=
  let skeleton := ComponentAccessor.BuildPodSpec baseSpec in
  {| PodSpec.Containers := containers;
     PodSpec.InitContainers :=
       PodSpec.InitContainers skeleton ++
       ComponentAccessor.InitContainers baseSpec;
     PodSpec.Volumes :=
       PodSpec.Volumes skeleton ++ ComponentAccessor.AdditionalVolumes baseSpec;
     PodSpec.ServiceAccountName := saName;
     PodSpec.Scheduling := PodSpec.Scheduling skeleton |}.


(** The shapes a journal and a result can take, given the three RBAC
    resources, the outcome of the Deployment build and the Service builder:
    the operations come in the order Role, ServiceAccount, RoleBinding,
    Deployment, Service, and the journal ends at the first failure. *)
Section Journal.
Variables (role : Role.t) (sa : ServiceAccount.t) (rb : RoleBinding.t).
Variable build : res Deployment.t.
Variable service : Deployment.t → res Service.t.

Inductive Journal : list Event → res unit → Prop :=
  | J_role_fails err :
      Journal [ApplyRole role (inr err)]
        (Err (RequeueErrorf
           ("error creating or updating discovery role: " +:+ Error err)))
  | J_serviceaccount_fails r err :
      Journal [ApplyRole role (inl r); ApplyServiceAccount sa (inr err)]
        (Err (RequeueErrorf
           ("error creating or updating discovery serviceaccount: "
            +:+ Error err)))
  | J_rolebinding_fails r a err :
      Journal [ApplyRole role (inl r); ApplyServiceAccount sa (inl a);
               ApplyRoleBinding rb (inr err)]
        (Err (RequeueErrorf
           ("error creating or updating discovery rolebinding: "
            +:+ Error err)))
  | J_build_fails r a b err :
      build = Err err →
      Journal [ApplyRole role (inl r); ApplyServiceAccount sa (inl a);
               ApplyRoleBinding rb (inl b)]
        (Err (RequeueErrorf
           ("error generating discovery deployment: " +:+ Error err)))
  | J_build_panics r a b msg :
      build = Panic msg →
      Journal [ApplyRole role (inl r); ApplyServiceAccount sa (inl a);
               ApplyRoleBinding rb (inl b)]
        (Panic msg)
  | J_deployment_fails r a b d err :
      build = Ok d →
      Journal [ApplyRole role (inl r); ApplyServiceAccount sa (inl a);
               ApplyRoleBinding rb (inl b); ApplyDeployment d (inr err)]
        (Err (RequeueErrorf
           ("error creating or updating discovery service: " +:+ Error err)))
  | J_service_fails r a b d deploy svc err :
      build = Ok d →
      service deploy = Ok svc →
      Journal [ApplyRole role (inl r); ApplyServiceAccount sa (inl a);
               ApplyRoleBinding rb (inl b); ApplyDeployment d (inl deploy);
               ApplyService svc (inr err)]
        (Err (RequeueErrorf
           ("error creating or updating discovery service: " +:+ Error err)))
  | J_done r a b d deploy svc applied :
      build = Ok d →
      service deploy = Ok svc →
      Journal [ApplyRole role (inl r); ApplyServiceAccount sa (inl a);
               ApplyRoleBinding rb (inl b); ApplyDeployment d (inl deploy);
               ApplyService svc (inl applied)]
        (Ok tt).
End Journal.

(** What the type switch of [Reconcile] passes on, per variant. *)
Definition variantInputs `{Ext : Externals} (obj : Object)
  : option (PolicyRule.t * bool) :=
  match obj with
  | TidbClusterObject tc =>
      Some (PolicyRule.mk [v1alpha1_GroupName] [TiDBClusterName]
              [TidbCluster.GetName tc] ["get"],
            TidbClusterSpec.PreferIPv6 (TidbCluster.Spec tc))
  | DMClusterObject dc =>
      Some (PolicyRule.mk [v1alpha1_GroupName] [DMClusterName]
              [DMCluster.GetName dc] ["get"],
            false)
  | _ => None
  end.


Definition templateLabels (d : Deployment.t) : gmap string string :=
  ObjectMeta.Labels
    (PodTemplateSpec.Meta (DeploymentSpec.Template (Deployment.Spec d))).

Definition discoveryPorts : list ServicePort.t :=
  [ ServicePort.mk "discovery" 10261 (FromInt 10261) "TCP";
    ServicePort.mk "proxy" 10262 (FromInt 10262) "TCP" ].

(** The instance label of a derived meta. *)
Definition instanceLabel `{Ext : Externals} (meta : ObjectMeta.t)
  : option string :=
  ObjectMeta.Labels meta !! InstanceLabelKey.

(** C6 as stated: for a TidbCluster and a DMCluster of the same name in
    the same namespace, the derived names differ and so do the instance
    labels; the DMCluster's instance label is the cluster name followed
    by "-dm" and the TidbCluster's is the cluster name. *)
Definition NamingIsolationAsStated `{Ext : Externals} : Prop :=
  ∀ tc dc mt lt md ld,
    TidbCluster.GetName tc = DMCluster.GetName dc →
    TidbCluster.GetNamespace tc = DMCluster.GetNamespace dc →
    getDiscoveryMeta (TidbClusterObject tc) DiscoveryMemberName = Ok (mt, lt) →
    getDiscoveryMeta (DMClusterObject dc) DiscoveryMemberName = Ok (md, ld) →
    ObjectMeta.Name mt ≠ ObjectMeta.Name md ∧
    instanceLabel mt ≠ instanceLabel md ∧
    instanceLabel mt = Some (TidbCluster.GetName tc) ∧
    instanceLabel md = Some (DMCluster.GetName dc +:+ "-dm").

Definition podSpecOf (d : Deployment.t) : PodSpec.t :=
  PodTemplateSpec.Spec (DeploymentSpec.Template (Deployment.Spec d)).

(** A collaborator that answers with the desired resource. *)
Definition echoControl : TypedControlInterface unit :=
  {| CreateOrUpdateRole _ r w := (w, inl r);
     CreateOrUpdateServiceAccount _ a w := (w, inl a);
     CreateOrUpdateRoleBinding _ b w := (w, inl b);
     CreateOrUpdateDeployment _ d w := (w, inl d);
     CreateOrUpdateService _ s w := (w, inl s) |}.

(** Two metadata agree on what identifies and owns a resource. *)
Definition sameIdentity (a b : ObjectMeta.t) : Prop :=
  ObjectMeta.Name a = ObjectMeta.Name b ∧
  ObjectMeta.Namespace a = ObjectMeta.Namespace b ∧
  ObjectMeta.Labels a = ObjectMeta.Labels b ∧
  ObjectMeta.OwnerReferences a = ObjectMeta.OwnerReferences b.

(** What lines 260-268 make of the first container. *)
Definition withTLS (c : Container.t) : Container.t :=
  Container.set_Env
    (Container.Env c ++ [EnvVar.mk "TC_TLS_ENABLED" "true" None])
    (Container.set_VolumeMounts
       (Container.VolumeMounts c ++
        [VolumeMount.mk "pd-tls" true "/var/lib/pd-tls"]) c).

(** A collaborator none of whose operations ever fails. *)
Definition AlwaysSucceeds {W} (ctl : TypedControlInterface W) : Prop :=
  (∀ obj x w, ∃ w' y, CreateOrUpdateRole ctl obj x w = (w', inl y)) ∧
  (∀ obj x w, ∃ w' y, CreateOrUpdateServiceAccount ctl obj x w = (w', inl y)) ∧
  (∀ obj x w, ∃ w' y, CreateOrUpdateRoleBinding ctl obj x w = (w', inl y)) ∧
  (∀ obj x w, ∃ w' y, CreateOrUpdateDeployment ctl obj x w = (w', inl y)) ∧
  (∀ obj x w, ∃ w' y, CreateOrUpdateService ctl obj x w = (w', inl y)).

(** The text [Reconcile] puts in front of the error of a failed operation
    (lines 101, 107, 122, 130 and 135). *)
Definition failurePrefix (k : Kind) : string :=
  match k with
  | KRole => "error creating or updating discovery role: "
  | KServiceAccount => "error creating or updating discovery serviceaccount: "
  | KRoleBinding => "error creating or updating discovery rolebinding: "
  | KDeployment => "error creating or updating discovery service: "
  | KService => "error creating or updating discovery service: "
  end.

(** The list handed to [MergePatchContainers] for an object (line 241). *)
Definition mergeInput `{Ext : Externals} {W}
    (m : realTidbDiscoveryManager W) (obj : Object) : list Container.t :=
  match discoveryInputs obj with
  | Ok (resources, timezone, baseSpec, name) =>
      PodSpec.Containers (ComponentAccessor.BuildPodSpec baseSpec) ++
      [discoveryContainer
         (CLIConfig.TiDBDiscoveryImage (Dependencies.CLIConfig (deps m)))
         resources timezone name baseSpec]
  | _ => []
  end.

Definition mergePatches (obj : Object) : list Container.t :=
  match baseSpecOf obj with
  | Some baseSpec => ComponentAccessor.AdditionalContainers baseSpec
  | None => []
  end.

(** The Deployment of lines 273-298, from its parts. *)
Definition deploymentOf `{Ext : Externals}
    (meta : ObjectMeta.t) (l : gmap string string)
    (baseSpec : ComponentAccessor.t) (podSpec : PodSpec.t) (b : string)
  : Deployment.t :=
  {| Deployment.Meta :=
       {| ObjectMeta.Name := ObjectMeta.Name meta;
          ObjectMeta.Namespace := ObjectMeta.Namespace meta;
          ObjectMeta.Labels := ObjectMeta.Labels meta;
          ObjectMeta.Annotations :=
            Some (<[LastAppliedPodTemplate := b]>
                    (default ∅ (ObjectMeta.Annotations meta)));
          ObjectMeta.OwnerReferences := ObjectMeta.OwnerReferences meta |};
     Deployment.Spec :=
       {| DeploymentSpec.Strategy := "Recreate";
          DeploymentSpec.Replicas := Some 1%Z;
          DeploymentSpec.Selector := label_LabelSelector l;
          DeploymentSpec.Template :=
            {| PodTemplateSpec.Meta :=
                 {| ObjectMeta.Name := "";
                    ObjectMeta.Namespace := "";
                    ObjectMeta.Labels :=
                      CombineStringMap (label_Labels l)
                        (ComponentAccessor.Labels baseSpec);
                    ObjectMeta.Annotations :=
                      ComponentAccessor.Annotations baseSpec;
                    ObjectMeta.OwnerReferences := [] |};
               PodTemplateSpec.Spec := podSpec |} |} |}.

(** The name a known variant goes by ([GetName]). *)
Definition objectName (obj : Object) : string :=
  match obj with
  | TidbClusterObject tc => TidbCluster.GetName tc
  | DMClusterObject dc => DMCluster.GetName dc
  | _ => ""
  end.

(** Two containers run the same program: they agree on everything but
    the volume mounts and the environment. *)
Definition sameProgram (c c' : Container.t) : Prop :=
  Container.Name c' = Container.Name c ∧
  Container.Image c' = Container.Image c ∧
  Container.Command c' = Container.Command c ∧
  Container.Resources c' = Container.Resources c ∧
  Container.ImagePullPolicy c' = Container.ImagePullPolicy c ∧
  Container.EnvFrom c' = Container.EnvFrom c ∧
  Container.Ports c' = Container.Ports c.

(** * Example objects

    Built on the reference instantiation; the theorems are applied to
    them further down. *)

(** The Deployment built for the TidbCluster "foo" with cluster TLS. *)
Definition tlsDeployment : Deployment.t :=
  Reference.built
    (getTidbDiscoveryDeployment (Ext := Reference.ext) Reference.manager
       (TidbClusterObject (Reference.tcFoo true))).



(** A TidbCluster "foo" whose base spec sets a label of its own and
    claims the component label of the discovery label set. *)
Definition tcFooWithLabels : TidbCluster.t :=
  {| TidbCluster.Meta := Reference.metaNamed "foo";
     TidbCluster.Spec :=
       TidbClusterSpec.mk (Some (PDSpec.mk "pingcap/pd")) false
         (DiscoverySpec.mk Reference.noResources);
     TidbCluster.GetInstanceName := "foo";
     TidbCluster.AcrossK8s := false;
     TidbCluster.Timezone := "UTC";
     TidbCluster.BaseDiscoverySpec :=
       {| ComponentAccessor.Env := [];
          ComponentAccessor.EnvFrom := [];
          ComponentAccessor.ImagePullPolicy := "IfNotPresent";
          ComponentAccessor.AdditionalVolumeMounts := [];
          ComponentAccessor.AdditionalContainers := [];
          ComponentAccessor.InitContainers := [];
          ComponentAccessor.AdditionalVolumes := [];
          ComponentAccessor.Labels :=
            {[ "team" := "db"; "app.kubernetes.io/component" := "custom" ]};
          ComponentAccessor.Annotations := Some {[ "note" := "x" ]};
          ComponentAccessor.BuildPodSpec := Reference.emptyPodSpec |};
     TidbCluster.IsTLSClusterEnabled := false;
     TidbCluster.WithoutLocalPD := false |}.

Definition labelledDeployment : Deployment.t :=
  Reference.built
    (getTidbDiscoveryDeployment (Ext := Reference.ext) Reference.manager
       (TidbClusterObject tcFooWithLabels)).

(** A TidbCluster "foo" without PD member, in a single Kubernetes. *)
Definition tcFooWithoutPD : TidbCluster.t :=
  {| TidbCluster.Meta := Reference.metaNamed "foo";
     TidbCluster.Spec :=
       TidbClusterSpec.mk None false (DiscoverySpec.mk Reference.noResources);
     TidbCluster.GetInstanceName := "foo";
     TidbCluster.AcrossK8s := false;
     TidbCluster.Timezone := "UTC";
     TidbCluster.BaseDiscoverySpec := Reference.plainAccessor;
     TidbCluster.IsTLSClusterEnabled := false;
     TidbCluster.WithoutLocalPD := true |}.

(** The Deployment is refused: four operations are asked for, no fifth. *)
Definition refusedDeploymentRun : list Event * res unit :=
  run (Ext := Reference.ext) (Reference.control (Some 3) None) Reference.cfg
    (DMClusterObject Reference.dcFoo) 0.

(** The collaborator adds the pod-template label "injected" to the
    Deployment it applies; the Service selects on it. *)
Definition injectedLabelRun : list Event * res unit :=
  run (Ext := Reference.ext)
    (Reference.control None (Some ("injected", "yes"))) Reference.cfg
    (TidbClusterObject (Reference.tcFoo false)) 0.

Definition appliedService : Service.t :=
  match fst injectedLabelRun !! 4%nat with
  | Some (ApplyService svc _) => svc
  | _ => Service.mk (Reference.metaNamed "") (ServiceSpec.mk "" [] ∅ None [])
  end.

Definition appliedDeployment : Deployment.t :=
  match fst injectedLabelRun !! 3%nat with
  | Some (ApplyDeployment _ (inl applied)) => applied
  | _ => Reference.emptyDeployment
  end.

(** A TidbCluster "foo" whose instance name is "foo-dm" (the instance
    name is what [GetInstanceName] returns, not the object's name). *)
Definition tcFooInstanceDM : TidbCluster.t :=
  {| TidbCluster.Meta := Reference.metaNamed "foo";
     TidbCluster.Spec :=
       TidbClusterSpec.mk (Some (PDSpec.mk "pingcap/pd")) false
         (DiscoverySpec.mk Reference.noResources);
     TidbCluster.GetInstanceName := "foo-dm";
     TidbCluster.AcrossK8s := false;
     TidbCluster.Timezone := "UTC";
     TidbCluster.BaseDiscoverySpec := Reference.plainAccessor;
     TidbCluster.IsTLSClusterEnabled := false;
     TidbCluster.WithoutLocalPD := false |}.

(** Collaborators as in the reference instantiation, with a merge and a
    serialiser of one's choice. *)
Definition externalsWith
    (merge : list Container.t → list Container.t → list Container.t + error)
    (marshal : PodSpec.t → string + error) : Externals :=
  let r := Reference.ext in
  {| v1alpha1_GroupName := v1alpha1_GroupName (Externals := r);
     TiDBClusterName := TiDBClusterName (Externals := r);
     DMClusterName := DMClusterName (Externals := r);
     label_New := label_New (Externals := r);
     label_NewDM := label_NewDM (Externals := r);
     label_Instance := label_Instance (Externals := r);
     label_Discovery := label_Discovery (Externals := r);
     label_Labels := label_Labels (Externals := r);
     label_LabelSelector := label_LabelSelector (Externals := r);
     InstanceLabelKey := InstanceLabelKey (Externals := r);
     PDLabelVal := PDLabelVal (Externals := r);
     DiscoveryMemberName := DiscoveryMemberName (Externals := r);
     LastAppliedPodTemplate := LastAppliedPodTemplate (Externals := r);
     ContainerResource := ContainerResource (Externals := r);
     GetOwnerRef := GetOwnerRef (Externals := r);
     GetDMOwnerRef := GetDMOwnerRef (Externals := r);
     ClusterTLSSecretName := ClusterTLSSecretName (Externals := r);
     MergePatchContainers := merge;
     IPv6FamilyPolicy := IPv6FamilyPolicy (Externals := r);
     IPv6Families := IPv6Families (Externals := r);
     json_Marshal := marshal |}.

(** A merge that refuses every patch, and one that loses every container. *)
Definition refusingMerge : Externals :=
  externalsWith (fun _ _ => inr (PlainError "invalid patch")) Reference.marshal.

Definition losingMerge : Externals :=
  externalsWith (fun _ _ => inl []) Reference.marshal.

(** A TidbCluster "foo" that prefers IPv6. *)
Definition tcFooIPv6 : TidbCluster.t :=
  {| TidbCluster.Meta := Reference.metaNamed "foo";
     TidbCluster.Spec :=
       TidbClusterSpec.mk (Some (PDSpec.mk "pingcap/pd")) true
         (DiscoverySpec.mk Reference.noResources);
     TidbCluster.GetInstanceName := "foo";
     TidbCluster.AcrossK8s := false;
     TidbCluster.Timezone := "UTC";
     TidbCluster.BaseDiscoverySpec := Reference.plainAccessor;
     TidbCluster.IsTLSClusterEnabled := false;
     TidbCluster.WithoutLocalPD := false |}.

(** Every operation succeeds, for the DMCluster "foo". *)
Definition successfulRun : list Event * res unit :=
  run (Ext := Reference.ext) (Reference.control None None) Reference.cfg
    (DMClusterObject Reference.dcFoo) 0%nat.

(** The merge refuses the patch, for the DMCluster "foo". *)
Definition refusedMergeRun : list Event * res unit :=
  run (Ext := refusingMerge) (Reference.control None None) Reference.cfg
    (DMClusterObject Reference.dcFoo) 0%nat.

(** What the successful run asked for, by position. *)
Definition successfulRole : Role.t :=
  match fst successfulRun !! 0%nat with
  | Some (ApplyRole x _) => x
  | _ => Role.mk (Reference.metaNamed "") []
  end.

Definition successfulServiceAccount : ServiceAccount.t :=
  match fst successfulRun !! 1%nat with
  | Some (ApplyServiceAccount x _) => x
  | _ => ServiceAccount.mk (Reference.metaNamed "")
  end.

Definition successfulRoleBinding : RoleBinding.t :=
  match fst successfulRun !! 2%nat with
  | Some (ApplyRoleBinding x _) => x
  | _ => RoleBinding.mk (Reference.metaNamed "") [] (RoleRef.mk "" "" "")
  end.

Definition successfulDeployment : Deployment.t :=
  match fst successfulRun !! 3%nat with
  | Some (ApplyDeployment x _) => x
  | _ => Reference.emptyDeployment
  end.

Definition successfulService : Service.t :=
  match fst successfulRun !! 4%nat with
  | Some (ApplyService x _) => x
  | _ => Service.mk (Reference.metaNamed "") (ServiceSpec.mk "" [] ∅ None [])
  end.

(** The Deployment that the collaborator refused. *)
Definition refusedDeployment : Deployment.t :=
  match last (fst refusedDeploymentRun) with
  | Some (ApplyDeployment d _) => d
  | _ => Reference.emptyDeployment
  end.

(** The merge loses the containers of a TidbCluster with cluster TLS. *)
Definition lostContainersRun : list Event * res unit :=
  run (Ext := losingMerge) (Reference.control None None) Reference.cfg
    (TidbClusterObject (Reference.tcFoo true)) 0%nat.

(** * Properties *)



(** ** Shape of a successful build *)

Lemma build_inv `{Ext : Externals} {W} (m : realTidbDiscoveryManager W) obj d :
  getTidbDiscoveryDeployment m obj = Ok d →
  ∃ resources timezone baseSpec objName meta l containers podSpec b,
    discoveryInputs obj = Ok (resources, timezone, baseSpec, objName) ∧
    getDiscoveryMeta obj DiscoveryMemberName = Ok (meta, l) ∧
    MergePatchContainers
      (PodSpec.Containers (ComponentAccessor.BuildPodSpec baseSpec) ++
       [discoveryContainer
          (CLIConfig.TiDBDiscoveryImage (Dependencies.CLIConfig (deps m)))
          resources timezone objName baseSpec])
      (ComponentAccessor.AdditionalContainers baseSpec) = inl containers ∧
    tlsAugment obj objName
      (podSpecBeforeTLS baseSpec (ObjectMeta.Name meta) containers)
      = Ok podSpec ∧
    json_Marshal podSpec = inl b ∧
    PodTemplateSpec.Spec (DeploymentSpec.Template (Deployment.Spec d))
      = podSpec ∧
    ObjectMeta.Labels
      (PodTemplateSpec.Meta (DeploymentSpec.Template (Deployment.Spec d)))
      = CombineStringMap (label_Labels l) (ComponentAccessor.Labels baseSpec) ∧
    ObjectMeta.Annotations
      (PodTemplateSpec.Meta (DeploymentSpec.Template (Deployment.Spec d)))
      = ComponentAccessor.Annotations baseSpec ∧
    ObjectMeta.Annotations (Deployment.Meta d)
      = Some (<[LastAppliedPodTemplate := b]>
                (default ∅ (ObjectMeta.Annotations meta))).
Proof.
  unfold getTidbDiscoveryDeployment. intros H.
  destruct (discoveryInputs obj) as [[[[resources timezone] baseSpec] objName]| |]
    eqn:Hin; try discriminate.
  destruct (getDiscoveryMeta obj DiscoveryMemberName) as [[meta l]| |]
    eqn:Hmeta; try discriminate.
  cbn [PodSpec.Containers PodSpec.set_Containers] in H.
  destruct (MergePatchContainers _ _) as [containers|err] eqn:Hmerge;
    try discriminate.
  match type of H with
  | context [tlsAugment obj objName ?p] =>
      change p with (podSpecBeforeTLS baseSpec (ObjectMeta.Name meta) containers)
        in H
  end.
  destruct (tlsAugment _ _ _) as [podSpec| |] eqn:Htls; try discriminate.
  cbn [PodTemplateSpec.Spec DeploymentSpec.Template] in H.
  destruct (json_Marshal podSpec) as [b|err] eqn:Hjson; try discriminate.
  injection H as <-.
  exists resources, timezone, baseSpec, objName, meta, l, containers, podSpec, b.
  repeat split; assumption.
Qed.

(** Under the merge contract the merged list starts with the containers
    of the base list, so a base list that is just the discovery container
    yields a merged list headed by a container of that name. *)
Lemma merge_head `{Ext : Externals} c patches out :
  MergeKeepsBase →
  MergePatchContainers [c] patches = inl out →
  ∃ c0 rest, out = c0 :: rest ∧ Container.Name c0 = Container.Name c.
Proof.
  intros Hlaw Hm. specialize (Hlaw _ _ _ Hm).
  destruct out as [|c0 rest]; cbn in Hlaw; [discriminate|].
  exists c0, rest. split; [done|]. by injection Hlaw.
Qed.


(** ** C1: TLS wiring *)

(** C1.  Let [tc] be a TidbCluster whose pod skeleton brings no container
    of its own, and let the merge collaborator keep its contract.  In
    every Deployment built for [tc], the first container [c0'] of the pod
    is the discovery container, obtained from the container [c0] the merge
    returned for it as follows.  If cluster TLS is enabled and the cluster
    is not without a local PD: [c0'] is [c0] with exactly one volume mount
    appended (read-only, at /var/lib/pd-tls) and exactly one environment
    entry appended (TC_TLS_ENABLED = "true"), and the pod's volumes are the
    skeleton's and the additional ones followed by exactly one volume whose
    secret is named by [ClusterTLSSecretName] from the cluster name and the
    PD label.  Otherwise (in particular with TLS disabled) [c0'] is [c0]
    and the volumes are only the skeleton's and the additional ones. *)
Theorem tls_wiring `{Ext : Externals} {W}
    (m : realTidbDiscoveryManager W) (tc : TidbCluster.t) (d : Deployment.t) :
  MergeKeepsBase →
  PodSpec.Containers
    (ComponentAccessor.BuildPodSpec (TidbCluster.BaseDiscoverySpec tc)) = [] →
  getTidbDiscoveryDeployment m (TidbClusterObject tc) = Ok d →
  let baseSpec := TidbCluster.BaseDiscoverySpec tc in
  let podSpec :=
    PodTemplateSpec.Spec (DeploymentSpec.Template (Deployment.Spec d)) in
  let volumes :=
    PodSpec.Volumes (ComponentAccessor.BuildPodSpec baseSpec) ++
    ComponentAccessor.AdditionalVolumes baseSpec in
  ∃ c0 c0' rest,
    MergePatchContainers
      [discoveryContainer
         (CLIConfig.TiDBDiscoveryImage (Dependencies.CLIConfig (deps m)))
         (DiscoverySpec.ResourceRequirements
            (TidbClusterSpec.Discovery (TidbCluster.Spec tc)))
         (TidbCluster.Timezone tc) (TidbCluster.GetName tc) baseSpec]
      (ComponentAccessor.AdditionalContainers baseSpec) = inl (c0 :: rest) ∧
    PodSpec.Containers podSpec = c0' :: rest ∧
    Container.Name c0' = "discovery" ∧
    if TidbCluster.IsTLSClusterEnabled tc && negb (TidbCluster.WithoutLocalPD tc)
    then
      c0' = Container.set_Env
              (Container.Env c0 ++
               [EnvVar.mk "TC_TLS_ENABLED" "true" None])
              (Container.set_VolumeMounts
                 (Container.VolumeMounts c0 ++
                  [VolumeMount.mk "pd-tls" true "/var/lib/pd-tls"]) c0) ∧
      PodSpec.Volumes podSpec =
        volumes ++
        [Volume.mk "pd-tls"
           (VolumeSource.mk
              (Some (ClusterTLSSecretName (TidbCluster.GetName tc) PDLabelVal))
              None)]
    else
      c0' = c0 ∧ PodSpec.Volumes podSpec = volumes.
Proof.
  intros Hlaw Hskel Hbuild.
  destruct (build_inv _ _ _ Hbuild)
    as (resources & timezone & baseSpec & objName & meta & l & containers
        & podSpec & b & Hin & _ & Hmerge & Htls & _ & Hspec & _).
  cbn in Hin. injection Hin as <- <- <- <-.
  rewrite Hskel in Hmerge. cbn [app] in Hmerge.
  destruct (merge_head _ _ _ Hlaw Hmerge) as (c0 & rest & -> & Hname).
  cbn zeta. rewrite Hspec. clear Hspec Hbuild.
  unfold tlsAugment, tlsBranch in Htls.
  destruct (TidbCluster.IsTLSClusterEnabled tc && negb (TidbCluster.WithoutLocalPD tc)).
  - cbn in Htls. injection Htls as <-.
    eexists c0, _, rest. cbn. repeat split; done.
  - injection Htls as <-. exists c0, c0, rest. cbn. repeat split; done.
Qed.

Lemma reference_merge_keeps_base : MergeKeepsBase (Ext := Reference.ext).
Proof.
  intros base patches out. cbn. unfold Reference.mergeByName.
  intros [= <-]. rewrite take_app_length'; [|by rewrite length_map].
  rewrite <-list_fmap_compose. apply list_fmap_ext.
  intros i c _. cbn. by destruct (find _ patches).
Defined.

Lemma tls_wiring_witness :
  ∃ c0' rest,
    PodSpec.Containers
      (PodTemplateSpec.Spec
         (DeploymentSpec.Template (Deployment.Spec tlsDeployment)))
      = c0' :: rest ∧
    Container.Name c0' = "discovery" ∧
    Container.VolumeMounts c0' =
      [VolumeMount.mk "pd-tls" true "/var/lib/pd-tls"] ∧
    PodSpec.Volumes
      (PodTemplateSpec.Spec
         (DeploymentSpec.Template (Deployment.Spec tlsDeployment)))
      = [Volume.mk "pd-tls"
           (VolumeSource.mk (Some "foo-pd-cluster-secret") None)].
Proof.
  destruct (tls_wiring (Ext := Reference.ext) Reference.manager
              (Reference.tcFoo true) tlsDeployment
              reference_merge_keeps_base eq_refl eq_refl)
    as (c0 & c0' & rest & Hm & Hc & Hn & He & Hv).
  exists c0', rest. cbn in Hm. injection Hm as <- <-.
  split; [exact Hc|]. split; [exact Hn|]. split; [by rewrite He|exact Hv].
Defined.

(** ** C2: the environment of the discovery container *)














(** ** C3: pod-template labels and annotations *)

Lemma CombineStringMap_lookup (a b : gmap string string) k :
  CombineStringMap a b !! k =
  match b !! k with Some v => Some v | None => a !! k end.
Proof.
  unfold CombineStringMap. rewrite lookup_union.
  by destruct (b !! k), (a !! k).
Qed.

Lemma discoveryInputs_baseSpec obj resources timezone baseSpec name :
  discoveryInputs obj = Ok (resources, timezone, baseSpec, name) →
  baseSpecOf obj = Some baseSpec.
Proof. destruct obj; cbn; intros [=]; by subst. Qed.

(** C3.  In every Deployment built for a cluster object, the labels of
    the pod template are [CombineStringMap] of the labels of the derived
    discovery label set and the labels of the variant's base spec: a key
    of the base spec carries the base spec's value, any other key the
    value of the discovery label set.  The annotations of the pod template
    are the annotations of the base spec, unchanged. *)
Theorem pod_template_labels `{Ext : Externals} {W}
    (m : realTidbDiscoveryManager W) (obj : Object) (d : Deployment.t) :
  getTidbDiscoveryDeployment m obj = Ok d →
  ∃ baseSpec meta l,
    baseSpecOf obj = Some baseSpec ∧
    getDiscoveryMeta obj DiscoveryMemberName = Ok (meta, l) ∧
    let template :=
      PodTemplateSpec.Meta (DeploymentSpec.Template (Deployment.Spec d)) in
    ObjectMeta.Labels template =
      CombineStringMap (label_Labels l) (ComponentAccessor.Labels baseSpec) ∧
    (∀ k, ObjectMeta.Labels template !! k =
          match ComponentAccessor.Labels baseSpec !! k with
          | Some v => Some v
          | None => label_Labels l !! k
          end) ∧
    ObjectMeta.Annotations template = ComponentAccessor.Annotations baseSpec.
Proof.
  intros Hd.
  destruct (build_inv _ _ _ Hd)
    as (? & ? & baseSpec & ? & meta & l & ? & ? & ? & Hin & Hmeta & _ & _ & _
        & _ & Hlabels & Hann & _).
  exists baseSpec, meta, l.
  split; [by eapply discoveryInputs_baseSpec|]. split; [done|]. cbn zeta.
  split; [done|]. split; [|done].
  intros k. rewrite Hlabels. apply CombineStringMap_lookup.
Qed.

Lemma pod_template_labels_witness :
  let template :=
    PodTemplateSpec.Meta
      (DeploymentSpec.Template
         (Deployment.Spec labelledDeployment)) in
  ObjectMeta.Labels template !! "app.kubernetes.io/component" = Some "custom" ∧
  ObjectMeta.Labels template !! "app.kubernetes.io/instance" = Some "foo" ∧
  ObjectMeta.Annotations template = Some {[ "note" := "x" ]}.
Proof.
  destruct (pod_template_labels (Ext := Reference.ext) Reference.manager
              (TidbClusterObject tcFooWithLabels)
              labelledDeployment eq_refl)
    as (baseSpec & meta & l & Hbase & Hmeta & _ & Hk & Hann).
  cbn in Hbase, Hmeta. injection Hbase as <-. injection Hmeta as _ <-.
  cbn zeta. rewrite !Hk, Hann. repeat split; reflexivity.
Defined.

(** ** The journal of a [Reconcile] call *)

Lemma getDiscoveryMeta_known `{Ext : Externals} obj nameFunc :
  knownVariant obj = true →
  ∃ meta l, getDiscoveryMeta obj nameFunc = Ok (meta, l).
Proof. destruct obj; try discriminate; cbn; eauto. Qed.

Lemma getDiscoveryMeta_not_err `{Ext : Externals} obj nameFunc e :
  getDiscoveryMeta obj nameFunc ≠ Err e.
Proof. by destruct obj. Qed.

Lemma getTidbDiscoveryService_not_err `{Ext : Externals} obj deploy ipv6 e :
  getTidbDiscoveryService obj deploy ipv6 ≠ Err e.
Proof.
  unfold getTidbDiscoveryService.
  pose proof (getDiscoveryMeta_not_err obj DiscoveryMemberName).
  destruct (getDiscoveryMeta obj DiscoveryMemberName) as [[??]|e'|]; try done.
  intros [= ->]. by eapply H.
Qed.

Lemma getTidbDiscoveryService_known `{Ext : Externals} obj deploy ipv6 :
  knownVariant obj = true →
  ∃ svc, getTidbDiscoveryService obj deploy ipv6 = Ok svc.
Proof.
  intros Hk. unfold getTidbDiscoveryService.
  destruct (getDiscoveryMeta_known obj DiscoveryMemberName Hk) as (? & ? & ->).
  eauto.
Qed.


Lemma Reconcile_known `{Ext : Externals} {W}
    (m : realTidbDiscoveryManager W) obj s :
  knownVariant obj = true →
  discoveryNeeded obj = true →
  ∃ rule ipv6,
    variantInputs obj = Some (rule, ipv6) ∧
    Reconcile m obj s = reconcileResources m obj obj rule ipv6 s.
Proof.
  intros Hk Hn. destruct obj as [|tc|dc|]; try discriminate; cbn.
  - cbn in Hn. apply negb_true_iff in Hn. rewrite Hn. eauto.
  - eauto.
Qed.

Lemma reconcileResources_journal `{Ext : Externals} {W}
    (inner : TypedControlInterface W) cfg obj metaObj rule ipv6 w meta l :
  getDiscoveryMeta metaObj DiscoveryMemberName = Ok (meta, l) →
  ∃ s r,
    reconcileResources (recordingManager inner cfg) obj metaObj rule ipv6
      (mkState ([], w) []) = (s, r) ∧
    Journal (discoveryRole meta rule) (discoveryServiceAccount meta)
      (discoveryRoleBinding meta)
      (getTidbDiscoveryDeployment (recordingManager inner cfg) metaObj)
      (fun deploy => getTidbDiscoveryService metaObj deploy ipv6)
      (fst (world s)) r.
Proof.
  intros Hmeta. unfold reconcileResources. rewrite Hmeta.
  cbn [recordingManager deps Dependencies.TypedControl recording
       CreateOrUpdateRole CreateOrUpdateServiceAccount
       CreateOrUpdateRoleBinding CreateOrUpdateDeployment
       CreateOrUpdateService world klog].
  unfold journalled at 1. cbn [fst snd].
  destruct (CreateOrUpdateRole inner _ _ _) as [w1 [r|err]].
  2:{ eexists _, _. split; [done|]. cbn. constructor. }
  unfold journalled at 1. cbn [fst snd].
  destruct (CreateOrUpdateServiceAccount inner _ _ _) as [w2 [a|err]].
  2:{ eexists _, _. split; [done|]. cbn. constructor. }
  unfold journalled at 1. cbn [fst snd].
  destruct (CreateOrUpdateRoleBinding inner _ _ _) as [w3 [b|err]].
  2:{ eexists _, _. split; [done|]. cbn. constructor. }
  destruct (getTidbDiscoveryDeployment _ metaObj) as [d|err|msg] eqn:Hbuild.
  2:{ eexists _, _. split; [done|]. cbn. by constructor. }
  2:{ eexists _, _. split; [done|]. cbn. by constructor. }
  unfold journalled at 1. cbn [fst snd].
  destruct (CreateOrUpdateDeployment inner _ _ _) as [w4 [deploy|err]].
  2:{ eexists _, _. split; [done|]. cbn. by constructor. }
  destruct (getTidbDiscoveryService metaObj deploy ipv6) as [svc|e|msg] eqn:Hsvc.
  - unfold journalled at 1. cbn [fst snd].
    destruct (CreateOrUpdateService inner _ _ _) as [w5 [applied|err]];
      eexists _, _; (split; [done|]); cbn; by econstructor.
  - by apply getTidbDiscoveryService_not_err in Hsvc.
  - exfalso. unfold getTidbDiscoveryService in Hsvc. by rewrite Hmeta in Hsvc.
Qed.

Lemma run_journal `{Ext : Externals} {W}
    (inner : TypedControlInterface W) cfg obj w :
  knownVariant obj = true →
  discoveryNeeded obj = true →
  ∃ meta l rule ipv6,
    getDiscoveryMeta obj DiscoveryMemberName = Ok (meta, l) ∧
    variantInputs obj = Some (rule, ipv6) ∧
    Journal (discoveryRole meta rule) (discoveryServiceAccount meta)
      (discoveryRoleBinding meta)
      (getTidbDiscoveryDeployment (recordingManager inner cfg) obj)
      (fun deploy => getTidbDiscoveryService obj deploy ipv6)
      (fst (run inner cfg obj w)) (snd (run inner cfg obj w)).
Proof.
  intros Hk Hn.
  destruct (getDiscoveryMeta_known obj DiscoveryMemberName Hk)
    as (meta & l & Hmeta).
  destruct (Reconcile_known (recordingManager inner cfg) obj
              (mkState ([], w) []) Hk Hn) as (rule & ipv6 & Hv & HR).
  destruct (reconcileResources_journal inner cfg obj obj rule ipv6 w meta l
              Hmeta) as (s & r & Hrun & HJ).
  exists meta, l, rule, ipv6. split; [done|]. split; [done|].
  unfold run. by rewrite HR, Hrun.
Qed.

(** Outside the known variants, and on the early return, nothing is
    applied. *)
Lemma run_idle `{Ext : Externals} {W}
    (inner : TypedControlInterface W) cfg obj w :
  knownVariant obj && discoveryNeeded obj = false →
  fst (run inner cfg obj w) = [].
Proof.
  intros H. destruct obj as [|tc|dc|]; try done.
  cbn in H. apply negb_false_iff in H.
  unfold run, Reconcile. cbn. by rewrite H.
Qed.

(** ** C5: the early return for a cluster without PD *)

(** C5.  For a TidbCluster whose spec has no PD member and that is not
    deployed across Kubernetes clusters, [Reconcile] returns nil and
    leaves the state as it found it, whatever the collaborator is; with a
    journalled collaborator the journal stays empty: no apply operation is
    invoked. *)
Theorem primary_without_pd_is_noop `{Ext : Externals} (tc : TidbCluster.t) :
  TidbClusterSpec.PD (TidbCluster.Spec tc) = None →
  TidbCluster.AcrossK8s tc = false →
  (∀ W (m : realTidbDiscoveryManager W) (s : state W),
     Reconcile m (TidbClusterObject tc) s = (s, Ok tt)) ∧
  (∀ W (inner : TypedControlInterface W) cfg w,
     run inner cfg (TidbClusterObject tc) w = ([], Ok tt)).
Proof.
  intros Hpd Hacross. split.
  - intros W m s. unfold Reconcile. cbn. by rewrite Hpd, Hacross.
  - intros W inner cfg w. unfold run, Reconcile. cbn.
    by rewrite Hpd, Hacross.
Qed.

Lemma primary_without_pd_is_noop_witness :
  run (Ext := Reference.ext) (Reference.control None None) Reference.cfg
    (TidbClusterObject tcFooWithoutPD) 0 = ([], Ok tt).
Proof.
  apply (primary_without_pd_is_noop (Ext := Reference.ext) tcFooWithoutPD
           eq_refl eq_refl).
Defined.

(** ** C9: unsupported types *)

(** C9.  For an object of any type other than TidbCluster and DMCluster,
    [Reconcile] writes one warning that names the type, returns nil and
    does not touch the world behind the collaborator; with a journalled
    collaborator the journal stays empty. *)
Theorem unsupported_type_is_noop `{Ext : Externals}
    (type : string) (meta : ObjectMeta.t) :
  (∀ W (m : realTidbDiscoveryManager W) (s : state W),
     Reconcile m (OtherObject type meta) s =
       (mkState (world s)
          (klog s ++ ["unsupported type " +:+ type +:+ " for discovery"]),
        Ok tt)) ∧
  (∀ W (inner : TypedControlInterface W) cfg w,
     run inner cfg (OtherObject type meta) w = ([], Ok tt)).
Proof. split; reflexivity. Qed.

(** ** C10: the type assertion of line 53 *)

Lemma reconcileResources_requeue `{Ext : Externals} {W}
    (m : realTidbDiscoveryManager W) obj metaObj rule ipv6 s e :
  snd (reconcileResources m obj metaObj rule ipv6 s) = Err e →
  is_requeue e = true.
Proof.
  unfold reconcileResources.
  pose proof (getDiscoveryMeta_not_err metaObj DiscoveryMemberName) as Hmeta.
  destruct (getDiscoveryMeta metaObj DiscoveryMemberName) as [[meta l]|e'|];
    [|by destruct (Hmeta e')|done].
  destruct (CreateOrUpdateRole _ _ _ _) as [w1 [?|?]]; [|by intros [= <-]].
  destruct (CreateOrUpdateServiceAccount _ _ _ _) as [w2 [?|?]];
    [|by intros [= <-]].
  destruct (CreateOrUpdateRoleBinding _ _ _ _) as [w3 [?|?]];
    [|by intros [= <-]].
  destruct (getTidbDiscoveryDeployment m metaObj) as [d| |];
    [|by intros [= <-]|done].
  destruct (CreateOrUpdateDeployment _ _ _ _) as [w4 [deploy|?]];
    [|by intros [= <-]].
  pose proof (getTidbDiscoveryService_not_err metaObj deploy ipv6) as Hsvc.
  destruct (getTidbDiscoveryService metaObj deploy ipv6) as [svc|e'|];
    [|by destruct (Hsvc e')|done].
  destruct (CreateOrUpdateService _ _ _ _) as [w5 [?|?]]; [done|].
  by intros [= <-].
Qed.

(** C10.  The type assertion [obj.(metav1.Object)] fails exactly on the
    nil interface value.  On nil, [Reconcile] returns the plain error
    "<nil> is not a metav1.Object" and changes nothing.  On every non-nil
    object, whatever error [Reconcile] returns is a requeue error, so the
    plain error of the guard is never returned. *)
Theorem meta_assertion_fails_only_on_nil `{Ext : Externals} {W}
    (m : realTidbDiscoveryManager W) (obj : Object) (s : state W) :
  (asMetaObject obj = None ↔ obj = NilObject) ∧
  Reconcile m NilObject s =
    (s, Err (PlainError "<nil> is not a metav1.Object")) ∧
  (obj ≠ NilObject →
   ∀ e, snd (Reconcile m obj s) = Err e → is_requeue e = true).
Proof.
  split; [by destruct obj|]. split; [done|].
  intros Hnil e. destruct obj as [|tc|dc|]; [done| | |done].
  - unfold Reconcile. cbn [asMetaObject].
    destruct (_ && _); [done|]. apply reconcileResources_requeue.
  - unfold Reconcile. cbn [asMetaObject]. apply reconcileResources_requeue.
Qed.

Lemma meta_assertion_fails_only_on_nil_witness :
  snd (Reconcile (Ext := Reference.ext)
         (NewTidbDiscoveryManager
            (Dependencies.mk (Reference.control (Some 0) None) Reference.cfg))
         (DMClusterObject Reference.dcFoo) (mkState 0 []))
  = Err (RequeueError
           "error creating or updating discovery role: connection refused")
  ∧ is_requeue
      (RequeueError
         "error creating or updating discovery role: connection refused")
    = true.
Proof.
  split; [reflexivity|].
  refine (proj2 (proj2 (meta_assertion_fails_only_on_nil (Ext := Reference.ext)
            (NewTidbDiscoveryManager
               (Dependencies.mk (Reference.control (Some 0) None)
                  Reference.cfg))
            (DMClusterObject Reference.dcFoo) (mkState 0 []))) _ _ _);
    [discriminate|reflexivity].
Defined.

(** ** C7: order of the operations and failures *)



(** ** C4: the Service *)

Lemma getTidbDiscoveryService_shape `{Ext : Externals} obj deploy ipv6 svc :
  getTidbDiscoveryService obj deploy ipv6 = Ok svc →
  ServiceSpec.Type_ (Service.Spec svc) = "ClusterIP" ∧
  ServiceSpec.Ports (Service.Spec svc) = discoveryPorts ∧
  ServiceSpec.Selector (Service.Spec svc) = templateLabels deploy.
Proof.
  unfold getTidbDiscoveryService.
  destruct (getDiscoveryMeta obj DiscoveryMemberName) as [[meta l]| |];
    [|done..].
  intros [= <-]. by destruct ipv6.
Qed.

(** C4.  For a cluster object of a known variant, the Service built from
    any Deployment is a ClusterIP service with exactly the two TCP ports
    10261 "discovery" and 10262 "proxy", and its selector is that
    Deployment's pod-template labels.  In [Reconcile], whatever the apply
    collaborator does, a Service is only ever applied right after the
    Deployment was applied successfully, and it is the Service built from
    the Deployment the collaborator answered with: its selector is the
    applied Deployment's pod-template labels, and so differs from the
    desired Deployment's labels whenever the applied ones do. *)
Theorem service_follows_applied_deployment `{Ext : Externals} (obj : Object) :
  knownVariant obj = true →
  (∀ deploy ipv6,
     ∃ svc,
       getTidbDiscoveryService obj deploy ipv6 = Ok svc ∧
       ServiceSpec.Type_ (Service.Spec svc) = "ClusterIP" ∧
       ServiceSpec.Ports (Service.Spec svc) = discoveryPorts ∧
       ServiceSpec.Selector (Service.Spec svc) = templateLabels deploy) ∧
  (∀ W (inner : TypedControlInterface W) cfg w journal result svc answer,
     run inner cfg obj w = (journal, result) →
     ApplyService svc answer ∈ journal →
     ∃ desired applied,
       journal !! 3%nat = Some (ApplyDeployment desired (inl applied)) ∧
       journal !! 4%nat = Some (ApplyService svc answer) ∧
       ServiceSpec.Type_ (Service.Spec svc) = "ClusterIP" ∧
       ServiceSpec.Ports (Service.Spec svc) = discoveryPorts ∧
       ServiceSpec.Selector (Service.Spec svc) = templateLabels applied ∧
       (templateLabels applied ≠ templateLabels desired →
        ServiceSpec.Selector (Service.Spec svc) ≠ templateLabels desired)).
Proof.
  intros Hk. split.
  - intros deploy ipv6.
    destruct (getTidbDiscoveryService_known obj deploy ipv6 Hk) as (svc & Hs).
    exists svc. split; [done|]. by eapply getTidbDiscoveryService_shape.
  - intros W inner cfg w journal result svc answer Hrun Hin.
    destruct (discoveryNeeded obj) eqn:Hn.
    2:{ pose proof (run_idle inner cfg obj w) as Hidle.
        rewrite Hk, Hn, Hrun in Hidle. cbn in Hidle.
        rewrite Hidle in Hin by done. by apply elem_of_nil in Hin. }
    destruct (run_journal inner cfg obj w Hk Hn)
      as (meta & l & rule & ipv6 & _ & _ & HJ).
    rewrite Hrun in HJ. cbn [fst snd] in HJ. clear Hrun.
    apply list_elem_of_In in Hin.
    destruct HJ as [err|r err|r a err|r a b err Hb|r a b msg Hb|r a b d err Hb
                   |r a b d deploy svc' err Hb Hs
                   |r a b d deploy svc' applied Hb Hs];
      cbn in Hin; try (repeat destruct Hin as [[=]|Hin]; by destruct Hin).
    + destruct Hin as [[=]|[[=]|[[=]|[[=]|[[= -> <-]|[]]]]]].
      apply getTidbDiscoveryService_shape in Hs as (? & ? & Hsel).
      exists d, deploy. repeat split; try done. by rewrite Hsel.
    + destruct Hin as [[=]|[[=]|[[=]|[[=]|[[= -> <-]|[]]]]]].
      apply getTidbDiscoveryService_shape in Hs as (? & ? & Hsel).
      exists d, deploy. repeat split; try done. by rewrite Hsel.
Qed.

Example injected_label_is_selected :
  templateLabels appliedDeployment !! "injected" = Some "yes" ∧
  ServiceSpec.Selector (Service.Spec appliedService) !! "injected"
    = Some "yes".
Proof. vm_compute. split; reflexivity. Qed.

Lemma service_follows_applied_deployment_witness :
  ∃ desired applied,
    fst injectedLabelRun !! 3%nat
      = Some (ApplyDeployment desired (inl applied)) ∧
    ServiceSpec.Selector (Service.Spec appliedService) = templateLabels applied.
Proof.
  destruct (proj2 (service_follows_applied_deployment (Ext := Reference.ext)
                     (TidbClusterObject (Reference.tcFoo false)) eq_refl)
              nat (Reference.control None (Some ("injected", "yes")))
              Reference.cfg 0%nat (fst injectedLabelRun) (snd injectedLabelRun)
              appliedService (inl appliedService)
              (surjective_pairing injectedLabelRun))
    as (desired & applied & H3 & _ & _ & _ & Hsel & _).
  { apply (list_elem_of_lookup_2 _ 4%nat). vm_compute. reflexivity. }
  exists desired, applied. split; [exact H3|exact Hsel].
Defined.

(** ** C6: names and instance labels of the two variants *)

Lemma append_nonempty_neq (s t : string) : t ≠ "" → s ≠ s +:+ t.
Proof.
  intros Ht. induction s as [|a s IH]; simpl.
  - intros H. by apply Ht.
  - intros [= H]. by apply IH.
Qed.

(** The two clusters named "foo" get the same instance label "foo-dm". *)
Lemma naming_isolation_counterexample :
  ¬ NamingIsolationAsStated (Ext := Reference.ext).
Proof.
  intros H.
  destruct (H tcFooInstanceDM Reference.dcFoo _ _ _ _
              eq_refl eq_refl eq_refl eq_refl) as (_ & Hne & _).
  apply Hne. vm_compute. reflexivity.
Qed.

(** C6, amended.  For a TidbCluster and a DMCluster of the same name, and
    a name function that maps different names to different names: the
    TidbCluster's resources are named after its name and the DMCluster's
    after its name followed by "-dm", so the two derived names differ;
    the TidbCluster's instance label is its instance name
    ([GetInstanceName]) and the DMCluster's is its instance name followed
    by "-dm", so the instance labels differ whenever the two clusters have
    the same instance name. *)
Theorem naming_isolation `{Ext : Externals}
    (nameFunc : string → string) (tc : TidbCluster.t) (dc : DMCluster.t) :
  LabelRecordsInstance →
  (∀ a b, nameFunc a = nameFunc b → a = b) →
  TidbCluster.GetName tc = DMCluster.GetName dc →
  ∃ mt lt md ld,
    getDiscoveryMeta (TidbClusterObject tc) nameFunc = Ok (mt, lt) ∧
    getDiscoveryMeta (DMClusterObject dc) nameFunc = Ok (md, ld) ∧
    ObjectMeta.Name mt = nameFunc (TidbCluster.GetName tc) ∧
    ObjectMeta.Name md = nameFunc (DMCluster.GetName dc +:+ "-dm") ∧
    ObjectMeta.Name mt ≠ ObjectMeta.Name md ∧
    instanceLabel mt = Some (TidbCluster.GetInstanceName tc) ∧
    instanceLabel md = Some (DMCluster.GetInstanceName dc +:+ "-dm") ∧
    (TidbCluster.GetInstanceName tc = DMCluster.GetInstanceName dc →
     instanceLabel mt ≠ instanceLabel md).
Proof.
  intros Hlabel Hinj Hname. unfold getDiscoveryMeta. eexists _, _, _, _.
  split; [reflexivity|]. split; [reflexivity|].
  unfold instanceLabel. cbn [ObjectMeta.Name ObjectMeta.Labels].
  rewrite !Hlabel.
  split; [done|]. split; [done|].
  split.
  { rewrite Hname. intros H. apply Hinj in H. revert H.
    by apply append_nonempty_neq. }
  split; [done|]. split; [done|].
  intros -> [= H]. revert H. by apply append_nonempty_neq.
Qed.

Lemma reference_label_records_instance :
  LabelRecordsInstance (Ext := Reference.ext).
Proof. intros l n. cbn. by rewrite lookup_insert_ne, lookup_insert_eq. Defined.

Lemma length_append (s t : string) :
  String.length (s +:+ t) = String.length s + String.length t.
Proof. induction s as [|a s IH]; simpl; [done|]. by rewrite IH. Defined.

Lemma append_inj_l (a b t : string) : a +:+ t = b +:+ t → a = b.
Proof.
  revert b. induction a as [|x a IH]; intros [|y b]; simpl; intros H.
  - done.
  - apply (f_equal String.length) in H.
    rewrite !length_append in H. simpl in H. lia.
  - apply (f_equal String.length) in H.
    rewrite !length_append in H. simpl in H. lia.
  - injection H as -> H. f_equal. by apply IH.
Defined.

Lemma reference_member_name_injective a b :
  DiscoveryMemberName (Externals := Reference.ext) a
    = DiscoveryMemberName (Externals := Reference.ext) b →
  a = b.
Proof. apply append_inj_l. Defined.

Lemma naming_isolation_witness :
  ∃ mt lt md ld,
    getDiscoveryMeta (Ext := Reference.ext)
      (TidbClusterObject (Reference.tcFoo false))
      (DiscoveryMemberName (Externals := Reference.ext)) = Ok (mt, lt) ∧
    getDiscoveryMeta (Ext := Reference.ext)
      (DMClusterObject Reference.dcFoo)
      (DiscoveryMemberName (Externals := Reference.ext)) = Ok (md, ld) ∧
    ObjectMeta.Name mt = "foo-discovery" ∧
    ObjectMeta.Name md = "foo-dm-discovery" ∧
    instanceLabel (Ext := Reference.ext) mt ≠
    instanceLabel (Ext := Reference.ext) md.
Proof.
  destruct (naming_isolation (Ext := Reference.ext)
              (DiscoveryMemberName (Externals := Reference.ext))
              (Reference.tcFoo false) Reference.dcFoo
              reference_label_records_instance
              reference_member_name_injective eq_refl)
    as (mt & lt & md & ld & Ht & Hd & Hnt & Hnd & _ & _ & _ & Hne).
  exists mt, lt, md, ld.
  split; [exact Ht|]. split; [exact Hd|]. split; [exact Hnt|].
  split; [exact Hnd|]. exact (Hne eq_refl).
Defined.

(** * Further properties of the manager *)

(** ** The build, case by case *)

Lemma tlsAugment_cases `{Ext : Externals} obj name p :
  tlsAugment obj name p =
  if tlsBranch obj then
    match PodSpec.Containers p with
    | [] => Panic "runtime error: index out of range [0] with length 0"
    | c0 :: rest =>
        Ok (PodSpec.mk (withTLS c0 :: rest) (PodSpec.InitContainers p)
              (PodSpec.Volumes p ++ [pdTLSVolume name])
              (PodSpec.ServiceAccountName p) (PodSpec.Scheduling p))
    end
  else Ok p.
Proof.
  unfold tlsAugment. destruct (tlsBranch obj); [|done].
  cbn. by destruct (PodSpec.Containers p).
Qed.

Lemma known_inputs `{Ext : Externals} obj :
  knownVariant obj = true →
  ∃ resources timezone baseSpec meta l,
    discoveryInputs obj = Ok (resources, timezone, baseSpec, objectName obj) ∧
    baseSpecOf obj = Some baseSpec ∧
    getDiscoveryMeta obj DiscoveryMemberName = Ok (meta, l) ∧
    ObjectMeta.Labels meta = l ∧
    ObjectMeta.Annotations meta = None.
Proof. destruct obj; try discriminate; intros _; cbn; eauto 10. Qed.

(** The build of a known variant, as a composition of the merge, the TLS
    branch and the serialiser. *)
Lemma build_cases `{Ext : Externals} {W}
    (m : realTidbDiscoveryManager W) obj baseSpec meta l :
  baseSpecOf obj = Some baseSpec →
  getDiscoveryMeta obj DiscoveryMemberName = Ok (meta, l) →
  getTidbDiscoveryDeployment m obj =
  match MergePatchContainers (mergeInput m obj) (mergePatches obj) with
  | inr err =>
      Err (PlainError
             ("failed to merge containers spec for Discovery of ["
              +:+ ObjectMeta.Namespace meta +:+ "/" +:+ ObjectMeta.Name meta
              +:+ "], error: " +:+ Error err))
  | inl containers =>
      match tlsAugment obj (objectName obj)
              (podSpecBeforeTLS baseSpec (ObjectMeta.Name meta) containers) with
      | Ok podSpec =>
          match json_Marshal podSpec with
          | inr err => Err err
          | inl b => Ok (deploymentOf meta l baseSpec podSpec b)
          end
      | Err e => Err e
      | Panic msg => Panic msg
      end
  end.
Proof.
  intros Hbase Hmeta.
  unfold getTidbDiscoveryDeployment, mergeInput, mergePatches.
  rewrite Hbase, Hmeta.
  destruct obj as [|tc|dc|]; try discriminate;
    cbn in Hbase; injection Hbase as <-;
    cbn [discoveryInputs objectName PodSpec.Containers PodSpec.set_Containers];
    (destruct (MergePatchContainers _ _) as [containers|err]; [|done]);
    match goal with
    | |- context [tlsAugment ?o ?n ?p] =>
        change p with (podSpecBeforeTLS
                         (match o with
                          | TidbClusterObject c => TidbCluster.BaseDiscoverySpec c
                          | DMClusterObject c => DMCluster.BaseDiscoverySpec c
                          | _ => Reference.plainAccessor
                          end) (ObjectMeta.Name meta) containers)
    end; cbn match;
    (destruct (tlsAugment _ _ _) as [podSpec| |]; [|done..]);
    cbn [PodTemplateSpec.Spec DeploymentSpec.Template];
    (destruct (json_Marshal podSpec); [|done]);
    unfold deploymentOf; by destruct (ObjectMeta.Annotations meta).
Qed.

(** ** Panics of the helpers *)

Lemma build_lost_containers `{Ext : Externals} {W}
    (m : realTidbDiscoveryManager W) obj :
  knownVariant obj = true →
  tlsBranch obj = true →
  MergePatchContainers (mergeInput m obj) (mergePatches obj) = inl [] →
  getTidbDiscoveryDeployment m obj
  = Panic "runtime error: index out of range [0] with length 0".
Proof.
  intros Hk Htls Hmerge.
  destruct (known_inputs obj Hk)
    as (resources & timezone & baseSpec & meta & l & _ & Hbase & Hmeta & _).
  rewrite (build_cases m obj baseSpec meta l Hbase Hmeta), Hmerge.
  by rewrite tlsAugment_cases, Htls.
Qed.

(** On the nil interface and on a value of any type other than the two
    cluster pointer types, [getDiscoveryMeta] and
    [getTidbDiscoveryDeployment] panic with the message "unsupported type T
    for discovery meta", T being what [%T] prints (lines 321 and 189).  On
    a pointer to a TidbCluster [tc] or to a DMCluster [dc],
    [getDiscoveryMeta] returns.  The build for the pointer to [tc] panics
    if and only if [tc] has cluster TLS enabled and a local PD and the
    container merge returned no container at all; the panic is then the
    index-out-of-range of [Containers[0]] (line 260).  The statement is
    about the cluster values [tc] and [dc]: a nil pointer of either type is
    no such value, and the methods of the cluster and of its base spec are
    taken to return. *)
Theorem helper_panics_by_variant `{Ext : Externals} {W}
    (m : realTidbDiscoveryManager W) (nameFunc : string → string)
    (tc : TidbCluster.t) (dc : DMCluster.t)
    (otherType : string) (otherMeta : ObjectMeta.t) :
  getDiscoveryMeta NilObject nameFunc
    = Panic "unsupported type <nil> for discovery meta" ∧
  getTidbDiscoveryDeployment m NilObject
    = Panic "unsupported type <nil> for discovery meta" ∧
  getDiscoveryMeta (OtherObject otherType otherMeta) nameFunc
    = Panic ("unsupported type " +:+ otherType +:+ " for discovery meta") ∧
  getTidbDiscoveryDeployment m (OtherObject otherType otherMeta)
    = Panic ("unsupported type " +:+ otherType +:+ " for discovery meta") ∧
  (∃ r, getDiscoveryMeta (TidbClusterObject tc) nameFunc = Ok r) ∧
  (∃ r, getDiscoveryMeta (DMClusterObject dc) nameFunc = Ok r) ∧
  (∀ msg,
     getTidbDiscoveryDeployment m (TidbClusterObject tc) = Panic msg ↔
     TidbCluster.IsTLSClusterEnabled tc = true ∧
     TidbCluster.WithoutLocalPD tc = false ∧
     MergePatchContainers (mergeInput m (TidbClusterObject tc))
       (mergePatches (TidbClusterObject tc)) = inl [] ∧
     msg = "runtime error: index out of range [0] with length 0").
Proof.
  split; [done|]. split; [done|]. split; [done|]. split; [done|].
  split; [cbn; eauto|]. split; [cbn; eauto|].
  intros msg. set (obj := TidbClusterObject tc).
  assert (tlsBranch obj = true ↔
          TidbCluster.IsTLSClusterEnabled tc = true ∧
          TidbCluster.WithoutLocalPD tc = false) as Hbranch.
  { cbn. rewrite andb_true_iff, negb_true_iff. tauto. }
  split.
  - intros Hp.
    destruct (known_inputs obj eq_refl)
      as (resources & timezone & baseSpec & meta & l & _ & Hbase & Hmeta & _).
    rewrite (build_cases m obj baseSpec meta l Hbase Hmeta) in Hp.
    destruct (MergePatchContainers _ _) as [merged|err]; [|discriminate].
    rewrite tlsAugment_cases in Hp.
    destruct (tlsBranch obj).
    + destruct (proj1 Hbranch eq_refl) as [-> ->].
      destruct merged as [|c0 rest]; cbn in Hp.
      * by injection Hp as <-.
      * by destruct (json_Marshal _).
    + by destruct (json_Marshal _).
  - intros (Htls & Hpd & Hmerge & ->).
    apply build_lost_containers; [done|by apply Hbranch|done].
Qed.

(** ** A DMCluster gets no TLS wiring *)

(** For a DMCluster the build never panics, whatever the container merge
    returns, and in a built Deployment the pod's containers are exactly
    the containers the merge returned and its volumes are the skeleton's
    followed by the additional ones: the type assertion of line 251 fails
    and nothing of the TLS branch is added. *)
Theorem dmcluster_gets_no_tls `{Ext : Externals} {W}
    (m : realTidbDiscoveryManager W) (dc : DMCluster.t) :
  (∀ msg, getTidbDiscoveryDeployment m (DMClusterObject dc) ≠ Panic msg) ∧
  (∀ d,
     getTidbDiscoveryDeployment m (DMClusterObject dc) = Ok d →
     let baseSpec := DMCluster.BaseDiscoverySpec dc in
     ∃ merged,
       MergePatchContainers (mergeInput m (DMClusterObject dc))
         (ComponentAccessor.AdditionalContainers baseSpec) = inl merged ∧
       PodSpec.Containers (podSpecOf d) = merged ∧
       PodSpec.Volumes (podSpecOf d) =
         PodSpec.Volumes (ComponentAccessor.BuildPodSpec baseSpec) ++
         ComponentAccessor.AdditionalVolumes baseSpec).
Proof.
  destruct (known_inputs (DMClusterObject dc) eq_refl)
    as (resources & timezone & baseSpec & meta & l & _ & Hbase & Hmeta & _).
  pose proof (build_cases m _ baseSpec meta l Hbase Hmeta) as Hb.
  cbn zeta. cbn in Hbase. injection Hbase as <-.
  change (mergePatches (DMClusterObject dc))
    with (ComponentAccessor.AdditionalContainers
            (DMCluster.BaseDiscoverySpec dc)) in Hb.
  rewrite Hb. clear Hb.
  destruct (MergePatchContainers _ _) as [merged|err]; [|by split].
  rewrite tlsAugment_cases. cbn [tlsBranch].
  destruct (json_Marshal _) as [b|err]; [|by split].
  split; [done|]. intros d [= <-]. by exists merged.
Qed.

Lemma dmcluster_gets_no_tls_witness :
  PodSpec.Volumes
    (podSpecOf
       (Reference.built
          (getTidbDiscoveryDeployment (Ext := Reference.ext) Reference.manager
             (DMClusterObject Reference.dcFoo)))) = [].
Proof.
  destruct (proj2 (dmcluster_gets_no_tls (Ext := Reference.ext)
                     Reference.manager Reference.dcFoo) _ eq_refl)
    as (merged & _ & _ & Hv).
  exact Hv.
Defined.

(** ** What the TLS branch leaves alone *)

(** In every built Deployment, of either variant and with or without
    TLS, the pod's containers correspond one to one to the containers the
    merge returned and run the same programs (name, image, command,
    resources, pull policy, envFrom and ports are the merge's); all but
    the first are the merge's containers unchanged; the init containers
    are the skeleton's followed by the base spec's; and the remaining
    fields of the skeleton are passed on. *)
Theorem tls_branch_frame `{Ext : Externals} {W}
    (m : realTidbDiscoveryManager W) (obj : Object) (d : Deployment.t) :
  getTidbDiscoveryDeployment m obj = Ok d →
  ∃ baseSpec merged,
    baseSpecOf obj = Some baseSpec ∧
    MergePatchContainers (mergeInput m obj) (mergePatches obj) = inl merged ∧
    Forall2 sameProgram merged (PodSpec.Containers (podSpecOf d)) ∧
    drop 1 (PodSpec.Containers (podSpecOf d)) = drop 1 merged ∧
    PodSpec.InitContainers (podSpecOf d) =
      PodSpec.InitContainers (ComponentAccessor.BuildPodSpec baseSpec) ++
      ComponentAccessor.InitContainers baseSpec ∧
    PodSpec.Scheduling (podSpecOf d) =
      PodSpec.Scheduling (ComponentAccessor.BuildPodSpec baseSpec).
Proof.
  intros Hd.
  assert (knownVariant obj = true) as Hk.
  { destruct obj; try done; discriminate Hd. }
  destruct (known_inputs obj Hk)
    as (resources & timezone & baseSpec & meta & l & _ & Hbase & Hmeta & _).
  rewrite (build_cases m obj baseSpec meta l Hbase Hmeta) in Hd.
  exists baseSpec.
  destruct (MergePatchContainers _ _) as [merged|err]; [|done].
  rewrite tlsAugment_cases in Hd.
  exists merged. split; [done|]. split; [done|].
  assert (Forall2 sameProgram merged merged) as Hrefl.
  { apply Forall2_same_length_lookup_2; [done|].
    intros i c c' H1 H2. rewrite H1 in H2. injection H2 as <-.
    by repeat split. }
  destruct (tlsBranch obj).
  - cbn in Hd. destruct merged as [|c0 rest]; [done|].
    destruct (json_Marshal _) as [b|]; [|done]. injection Hd as <-.
    cbn. split; [|done]. apply Forall2_cons in Hrefl as [_ Hrest].
    apply Forall2_cons. split; [by repeat split|done].
  - destruct (json_Marshal _) as [b|]; [|done]. by injection Hd as <-.
Qed.

Lemma tls_branch_frame_witness :
  PodSpec.InitContainers (podSpecOf tlsDeployment) = [] ∧
  drop 1 (PodSpec.Containers (podSpecOf tlsDeployment)) = [].
Proof.
  destruct (tls_branch_frame (Ext := Reference.ext) Reference.manager
              (TidbClusterObject (Reference.tcFoo true)) tlsDeployment eq_refl)
    as (baseSpec & merged & Hbase & Hmerge & _ & Hdrop & Hinit & _).
  cbn in Hbase. injection Hbase as <-.
  cbn in Hmerge. injection Hmerge as <-.
  split; [exact Hinit|exact Hdrop].
Defined.

(** ** Errors of the build *)

(** For a known variant the build returns an error in exactly two ways.
    Either the container merge failed: the error is a plain error whose
    text names the namespace and the derived resource name and ends with
    the text of the merge's error.  Or the merge and the TLS branch went
    through and serialising the finished pod spec failed: that error is
    returned as it is. *)
Theorem build_fails_exactly_when `{Ext : Externals} {W}
    (m : realTidbDiscoveryManager W) (obj : Object) (e : error) :
  knownVariant obj = true →
  ∃ meta l baseSpec,
    getDiscoveryMeta obj DiscoveryMemberName = Ok (meta, l) ∧
    baseSpecOf obj = Some baseSpec ∧
    (getTidbDiscoveryDeployment m obj = Err e ↔
     (∃ err,
        MergePatchContainers (mergeInput m obj) (mergePatches obj) = inr err ∧
        e = PlainError
              ("failed to merge containers spec for Discovery of ["
               +:+ ObjectMeta.Namespace meta +:+ "/" +:+ ObjectMeta.Name meta
               +:+ "], error: " +:+ Error err)) ∨
     (∃ merged podSpec,
        MergePatchContainers (mergeInput m obj) (mergePatches obj)
          = inl merged ∧
        tlsAugment obj (objectName obj)
          (podSpecBeforeTLS baseSpec (ObjectMeta.Name meta) merged)
          = Ok podSpec ∧
        json_Marshal podSpec = inr e)).
Proof.
  intros Hk.
  destruct (known_inputs obj Hk)
    as (resources & timezone & baseSpec & meta & l & _ & Hbase & Hmeta & _).
  exists meta, l, baseSpec. split; [done|]. split; [done|].
  rewrite (build_cases m obj baseSpec meta l Hbase Hmeta).
  destruct (MergePatchContainers _ _) as [merged|err].
  - assert (∀ mg ps,
              inl merged = (inl mg : list Container.t + error) →
              tlsAugment obj (objectName obj)
                (podSpecBeforeTLS baseSpec (ObjectMeta.Name meta) mg) = Ok ps →
              tlsAugment obj (objectName obj)
                (podSpecBeforeTLS baseSpec (ObjectMeta.Name meta) merged)
              = Ok ps) as Hsame by (by intros mg ps [= <-]).
    destruct (tlsAugment _ _ _) as [podSpec|e'|msg] eqn:Htls.
    + destruct (json_Marshal podSpec) as [b|err] eqn:Hjson.
      * split; [done|].
        intros [(err & Hm & _)|(mg & ps & Hm & Ht & Hj)]; [done|].
        apply (Hsame _ _ Hm) in Ht. injection Ht as <-. congruence.
      * split.
        -- intros [= ->]. right. by exists merged, podSpec.
        -- intros [(err' & Hm & _)|(mg & ps & Hm & Ht & Hj)]; [done|].
           apply (Hsame _ _ Hm) in Ht. injection Ht as <-. congruence.
    + rewrite tlsAugment_cases in Htls.
      destruct (tlsBranch obj); [|done].
      cbn in Htls. by destruct merged.
    + split; [done|].
      intros [(err & Hm & _)|(mg & ps & Hm & Ht & Hj)]; [done|].
      by apply (Hsame _ _ Hm) in Ht.
  - split.
    + intros [= <-]. left. by exists err.
    + by intros [(err' & [= <-] & ->)|(? & ? & [=] & _)].
Qed.

Lemma build_fails_exactly_when_witness :
  getTidbDiscoveryDeployment (Ext := refusingMerge) Reference.manager
    (DMClusterObject Reference.dcFoo)
  = Err (PlainError
           "failed to merge containers spec for Discovery of [ns/foo-dm-discovery], error: invalid patch").
Proof.
  destruct (build_fails_exactly_when (Ext := refusingMerge) Reference.manager
              (DMClusterObject Reference.dcFoo)
              (PlainError
                 "failed to merge containers spec for Discovery of [ns/foo-dm-discovery], error: invalid patch")
              eq_refl) as (meta & l & baseSpec & Hmeta & _ & H).
  apply H. left. exists (PlainError "invalid patch").
  cbn in Hmeta. injection Hmeta as <- _. split; reflexivity.
Defined.

(** ** The envelope of the Deployment *)

(** Every built Deployment, of either variant, has the name, namespace,
    labels and owner reference that [getDiscoveryMeta] derives for the
    object; its labels are the discovery label set and its selector is
    made from that same set; it is recreated rather than rolled, with one
    replica; and its pod runs under the service account that has the
    Deployment's own name. *)
Theorem deployment_envelope `{Ext : Externals} {W}
    (m : realTidbDiscoveryManager W) (obj : Object) (d : Deployment.t) :
  getTidbDiscoveryDeployment m obj = Ok d →
  ∃ meta l,
    getDiscoveryMeta obj DiscoveryMemberName = Ok (meta, l) ∧
    sameIdentity (Deployment.Meta d) meta ∧
    ObjectMeta.Labels (Deployment.Meta d) = l ∧
    DeploymentSpec.Selector (Deployment.Spec d) = label_LabelSelector l ∧
    DeploymentSpec.Strategy (Deployment.Spec d) = "Recreate" ∧
    DeploymentSpec.Replicas (Deployment.Spec d) = Some 1%Z ∧
    PodSpec.ServiceAccountName (podSpecOf d)
      = ObjectMeta.Name (Deployment.Meta d).
Proof.
  intros Hd.
  assert (knownVariant obj = true) as Hk.
  { destruct obj; try done; discriminate Hd. }
  destruct (known_inputs obj Hk)
    as (resources & timezone & baseSpec & meta & l & _ & Hbase & Hmeta & Hl & _).
  exists meta, l. split; [done|].
  rewrite (build_cases m obj baseSpec meta l Hbase Hmeta) in Hd.
  destruct (MergePatchContainers _ _) as [merged|err]; [|done].
  rewrite tlsAugment_cases in Hd.
  destruct (tlsBranch obj).
  - cbn in Hd. destruct merged as [|c0 rest]; [done|].
    destruct (json_Marshal _) as [b|]; [|done]. injection Hd as <-.
    by repeat split.
  - destruct (json_Marshal _) as [b|]; [|done]. injection Hd as <-.
    by repeat split.
Qed.

Lemma deployment_envelope_witness :
  ObjectMeta.Name (Deployment.Meta tlsDeployment) = "foo-discovery" ∧
  PodSpec.ServiceAccountName (podSpecOf tlsDeployment) = "foo-discovery".
Proof.
  destruct (deployment_envelope (Ext := Reference.ext) Reference.manager
              (TidbClusterObject (Reference.tcFoo true)) tlsDeployment eq_refl)
    as (meta & l & Hmeta & (Hn & _) & _ & _ & _ & _ & Hsa).
  cbn in Hmeta. injection Hmeta as <- _.
  split; [exact Hn|]. rewrite Hsa. exact Hn.
Defined.

(** ** The fingerprint *)

(** Every built Deployment carries exactly one annotation: under the key
    [LastAppliedPodTemplate], the text [json.Marshal] gave for the pod spec
    that the Deployment itself carries - the final one, with what the TLS
    branch added (lines 289-296). *)
Theorem fingerprint_is_of_final_pod_spec `{Ext : Externals} {W}
    (m : realTidbDiscoveryManager W) (obj : Object) (d : Deployment.t) :
  getTidbDiscoveryDeployment m obj = Ok d →
  ∃ b,
    json_Marshal (podSpecOf d) = inl b ∧
    ObjectMeta.Annotations (Deployment.Meta d)
      = Some {[ LastAppliedPodTemplate := b ]}.
Proof.
  intros Hd.
  destruct (build_inv _ _ _ Hd)
    as (resources & timezone & baseSpec & name & meta & l & containers
        & podSpec & b & _ & Hmeta & _ & _ & Hjson & Hspec & _ & _ & Hann).
  exists b. unfold podSpecOf. rewrite Hspec. split; [done|].
  rewrite Hann. f_equal.
  assert (ObjectMeta.Annotations meta = None) as ->.
  { destruct obj; try discriminate; cbn in Hmeta; by injection Hmeta as <- _. }
  apply insert_empty.
Qed.

Lemma fingerprint_is_of_final_pod_spec_witness :
  ObjectMeta.Annotations (Deployment.Meta tlsDeployment)
  = Some {[ LastAppliedPodTemplate (Externals := Reference.ext) :=
              "{containers:[discovery],volumes:[pd-tls],serviceAccountName:foo-discovery,}" ]}.
Proof.
  destruct (fingerprint_is_of_final_pod_spec (Ext := Reference.ext)
              Reference.manager (TidbClusterObject (Reference.tcFoo true))
              tlsDeployment eq_refl) as (b & Hb & Hann).
  cbn in Hb. injection Hb as <-. exact Hann.
Defined.

(** ** [Reconcile], the log and the first operation *)

Lemma reconcileResources_klog `{Ext : Externals} {W}
    (m : realTidbDiscoveryManager W) obj metaObj rule ipv6 s :
  klog (fst (reconcileResources m obj metaObj rule ipv6 s)) = klog s.
Proof.
  unfold reconcileResources.
  destruct (getDiscoveryMeta metaObj DiscoveryMemberName) as [[meta l]| |];
    [|done..].
  destruct (CreateOrUpdateRole _ _ _ _) as [w1 [?|?]]; [|done].
  destruct (CreateOrUpdateServiceAccount _ _ _ _) as [w2 [?|?]]; [|done].
  destruct (CreateOrUpdateRoleBinding _ _ _ _) as [w3 [?|?]]; [|done].
  destruct (getTidbDiscoveryDeployment m metaObj) as [d| |]; [|done..].
  destruct (CreateOrUpdateDeployment _ _ _ _) as [w4 [deploy|?]]; [|done].
  destruct (getTidbDiscoveryService metaObj deploy ipv6) as [svc| |];
    [|done..].
  by destruct (CreateOrUpdateService _ _ _ _) as [w5 [?|?]].
Qed.

(** [Reconcile] writes to the log exactly when the object has a type other
    than the two variants: then it appends the one warning that names the
    type.  For a TidbCluster, a DMCluster and the nil interface it leaves
    the log as it is, whatever the collaborator answers. *)
Theorem warning_exactly_for_unsupported `{Ext : Externals} {W}
    (m : realTidbDiscoveryManager W) (obj : Object) (s : state W) :
  klog (fst (Reconcile m obj s)) =
  klog s ++
  match obj with
  | OtherObject type _ => ["unsupported type " +:+ type +:+ " for discovery"]
  | _ => []
  end.
Proof.
  unfold Reconcile. destruct obj as [|tc|dc|type meta]; cbn [asMetaObject].
  - cbn. by rewrite app_nil_r.
  - rewrite app_nil_r. destruct (_ && _); [done|].
    apply reconcileResources_klog.
  - rewrite app_nil_r. apply reconcileResources_klog.
  - done.
Qed.

Lemma journal_starts_with_role role sa rb build service journal result :
  Journal role sa rb build service journal result →
  ∃ answer, head journal = Some (ApplyRole role answer).
Proof. destruct 1; cbn; eauto. Qed.

(** [Reconcile] asks the collaborator for nothing exactly when the object
    is the nil interface, of an unsupported type, or a TidbCluster without
    PD member that is not deployed across Kubernetes clusters.  In every
    other case, a DMCluster always and a TidbCluster without PD that is
    deployed across clusters included, the first thing it asks for is the
    Role. *)
Theorem nothing_applied_exactly_when `{Ext : Externals} {W}
    (inner : TypedControlInterface W) (cfg : CLIConfig.t) (obj : Object)
    (w : W) :
  (fst (run inner cfg obj w) = [] ↔
   match obj with
   | TidbClusterObject tc =>
       TidbClusterSpec.PD (TidbCluster.Spec tc) = None ∧
       TidbCluster.AcrossK8s tc = false
   | DMClusterObject _ => False
   | _ => True
   end) ∧
  (fst (run inner cfg obj w) ≠ [] →
   ∃ role answer, head (fst (run inner cfg obj w)) = Some (ApplyRole role answer)).
Proof.
  destruct (knownVariant obj && discoveryNeeded obj) eqn:Hkn.
  - apply andb_true_iff in Hkn as [Hk Hn].
    destruct (run_journal inner cfg obj w Hk Hn)
      as (meta & l & rule & ipv6 & _ & _ & HJ).
    apply journal_starts_with_role in HJ as [answer HJ].
    destruct (fst (run inner cfg obj w)) as [|ev journal]; [done|].
    split; [|by eauto]. split; [done|].
    destruct obj as [|tc|dc|]; try done.
    cbn in Hn. intros [Hpd Hacross]. by rewrite Hpd, Hacross in Hn.
  - rewrite (run_idle inner cfg obj w Hkn). split; [|done]. split; [|done].
    intros _. destruct obj as [|tc|dc|]; try done.
    cbn in Hkn. apply negb_false_iff, andb_true_iff in Hkn as [Hpd Hacross].
    apply bool_decide_eq_true in Hpd. split; [done|].
    by apply negb_true_iff in Hacross.
Qed.

(** A TidbCluster "foo" without PD member that is deployed across
    Kubernetes clusters: the Role is asked for. *)
Lemma nothing_applied_exactly_when_witness :
  ∃ role answer,
    head (fst (run (Ext := Reference.ext) (Reference.control None None)
                 Reference.cfg
                 (TidbClusterObject
                    (TidbCluster.mk (Reference.metaNamed "foo")
                       (TidbClusterSpec.mk None false
                          (DiscoverySpec.mk Reference.noResources))
                       "foo" true "UTC" Reference.plainAccessor false true))
                 0%nat))
    = Some (ApplyRole role answer).
Proof.
  apply (nothing_applied_exactly_when (Ext := Reference.ext)).
  intros H. apply (f_equal length) in H. revert H.
  match goal with |- length ?j = _ → _ =>
    assert (length j = 5%nat) as -> by (vm_compute; reflexivity)
  end.
  discriminate.
Defined.

(** ** What is asked of the collaborator *)

Ltac journal_member H :=
  apply list_elem_of_In in H; cbn in H;
  repeat (destruct H as [H|H];
          [try discriminate H; simplify_eq; cbn; by eauto 10|]);
  try destruct H.

(** Where each kind of operation stands in a journal, and what it was
    given. *)
Lemma journal_events role sa rb build service journal result :
  Journal role sa rb build service journal result →
  (∀ x a, ApplyRole x a ∈ journal →
     x = role ∧ journal !! 0%nat = Some (ApplyRole x a)) ∧
  (∀ x a, ApplyServiceAccount x a ∈ journal →
     x = sa ∧ journal !! 1%nat = Some (ApplyServiceAccount x a) ∧
     ∃ r, journal !! 0%nat = Some (ApplyRole role (inl r))) ∧
  (∀ x a, ApplyRoleBinding x a ∈ journal →
     x = rb ∧ journal !! 2%nat = Some (ApplyRoleBinding x a) ∧
     ∃ r s, journal !! 0%nat = Some (ApplyRole role (inl r)) ∧
            journal !! 1%nat = Some (ApplyServiceAccount sa (inl s))) ∧
  (∀ x a, ApplyDeployment x a ∈ journal →
     build = Ok x ∧ journal !! 3%nat = Some (ApplyDeployment x a) ∧
     ∃ s, journal !! 1%nat = Some (ApplyServiceAccount sa (inl s))) ∧
  (∀ x a, ApplyService x a ∈ journal →
     ∃ d deploy,
       build = Ok d ∧ service deploy = Ok x ∧
       journal !! 3%nat = Some (ApplyDeployment d (inl deploy)) ∧
       journal !! 4%nat = Some (ApplyService x a)).
Proof.
  destruct 1; (split; [|split; [|split; [|split]]]);
    intros x ans Hin; journal_member Hin.
Qed.

(** The journal of any object, empty or shaped as [Journal] says. *)
Lemma run_cases `{Ext : Externals} {W}
    (inner : TypedControlInterface W) cfg obj w journal result :
  run inner cfg obj w = (journal, result) →
  journal = [] ∨
  ∃ meta l rule ipv6,
    knownVariant obj = true ∧
    getDiscoveryMeta obj DiscoveryMemberName = Ok (meta, l) ∧
    variantInputs obj = Some (rule, ipv6) ∧
    Journal (discoveryRole meta rule) (discoveryServiceAccount meta)
      (discoveryRoleBinding meta)
      (getTidbDiscoveryDeployment (recordingManager inner cfg) obj)
      (fun deploy => getTidbDiscoveryService obj deploy ipv6)
      journal result.
Proof.
  intros Hrun.
  destruct (knownVariant obj && discoveryNeeded obj) eqn:Hkn.
  - apply andb_true_iff in Hkn as [Hk Hn]. right.
    destruct (run_journal inner cfg obj w Hk Hn)
      as (meta & l & rule & ipv6 & Hmeta & Hv & HJ).
    rewrite Hrun in HJ. by exists meta, l, rule, ipv6.
  - left. pose proof (run_idle inner cfg obj w Hkn) as H.
    by rewrite Hrun in H.
Qed.

Lemma successfulRun_journal :
  fst successfulRun =
  [ ApplyRole successfulRole (inl successfulRole);
    ApplyServiceAccount successfulServiceAccount (inl successfulServiceAccount);
    ApplyRoleBinding successfulRoleBinding (inl successfulRoleBinding);
    ApplyDeployment successfulDeployment (inl successfulDeployment);
    ApplyService successfulService (inl successfulService) ].
Proof. vm_cast_no_check (@eq_refl (list Event) (fst successfulRun)). Defined.

Lemma successfulRun_member (i : nat) (ev : Event) :
  [ ApplyRole successfulRole (inl successfulRole);
    ApplyServiceAccount successfulServiceAccount (inl successfulServiceAccount);
    ApplyRoleBinding successfulRoleBinding (inl successfulRoleBinding);
    ApplyDeployment successfulDeployment (inl successfulDeployment);
    ApplyService successfulService (inl successfulService) ] !! i = Some ev →
  ev ∈ fst successfulRun.
Proof. rewrite successfulRun_journal. apply list_elem_of_lookup_2. Defined.

(** Whenever [Reconcile] asks for the RoleBinding, it has before that
    asked for the Role and for the ServiceAccount and both were applied
    successfully; the RoleBinding has one subject, the ServiceAccount of
    just that name, and refers to the Role of just that name in the RBAC
    API group; and the three are in the same namespace. *)
Theorem rolebinding_binds_what_was_applied `{Ext : Externals} {W}
    (inner : TypedControlInterface W) (cfg : CLIConfig.t) (obj : Object)
    (w : W) (journal : list Event) (result : res unit)
    (rb : RoleBinding.t) (answer : RoleBinding.t + error) :
  run inner cfg obj w = (journal, result) →
  ApplyRoleBinding rb answer ∈ journal →
  ∃ role r sa a,
    journal !! 0%nat = Some (ApplyRole role (inl r)) ∧
    journal !! 1%nat = Some (ApplyServiceAccount sa (inl a)) ∧
    journal !! 2%nat = Some (ApplyRoleBinding rb answer) ∧
    RoleBinding.Subjects rb =
      [Subject.mk "ServiceAccount"
         (ObjectMeta.Name (ServiceAccount.Meta sa))] ∧
    RoleBinding.Ref rb =
      RoleRef.mk "Role" (ObjectMeta.Name (Role.Meta role))
        "rbac.authorization.k8s.io" ∧
    ObjectMeta.Namespace (RoleBinding.Meta rb)
      = ObjectMeta.Namespace (Role.Meta role) ∧
    ObjectMeta.Namespace (RoleBinding.Meta rb)
      = ObjectMeta.Namespace (ServiceAccount.Meta sa).
Proof.
  intros Hrun Hin.
  destruct (run_cases inner cfg obj w journal result Hrun)
    as [->|(meta & l & rule & ipv6 & _ & _ & _ & HJ)];
    [by apply elem_of_nil in Hin|].
  destruct (journal_events _ _ _ _ _ _ _ HJ) as (_ & _ & Hrb & _).
  destruct (Hrb _ _ Hin) as (-> & H2 & r & a & H0 & H1).
  by exists (discoveryRole meta rule), r, (discoveryServiceAccount meta), a.
Qed.

Lemma rolebinding_binds_what_was_applied_witness :
  ∃ role r sa a,
    fst successfulRun !! 0%nat = Some (ApplyRole role (inl r)) ∧
    fst successfulRun !! 1%nat = Some (ApplyServiceAccount sa (inl a)) ∧
    RoleBinding.Subjects successfulRoleBinding =
      [Subject.mk "ServiceAccount"
         (ObjectMeta.Name (ServiceAccount.Meta sa))].
Proof.
  destruct (rolebinding_binds_what_was_applied (Ext := Reference.ext)
              (Reference.control None None) Reference.cfg
              (DMClusterObject Reference.dcFoo) 0%nat
              (fst successfulRun) (snd successfulRun)
              successfulRoleBinding (inl successfulRoleBinding)
              (surjective_pairing successfulRun)
              (successfulRun_member 2 _ eq_refl))
    as (role & r & sa & a & H0 & H1 & _ & Hsub & _).
  exists role, r, sa, a. split; [exact H0|]. split; [exact H1|exact Hsub].
Defined.

(** The Role that [Reconcile] asks for has exactly two rules: "get" on
    the one cluster object of the variant's resource kind that has the
    object's name, and "get", "list" and "watch" on the secrets of the core
    API group, with no restriction by name. *)
Theorem role_grants_own_cluster_and_secrets `{Ext : Externals} {W}
    (inner : TypedControlInterface W) (cfg : CLIConfig.t) (obj : Object)
    (w : W) (journal : list Event) (result : res unit)
    (role : Role.t) (answer : Role.t + error) :
  run inner cfg obj w = (journal, result) →
  ApplyRole role answer ∈ journal →
  let secrets := PolicyRule.mk [""] ["secrets"] [] ["get"; "list"; "watch"] in
  match obj with
  | TidbClusterObject tc =>
      Role.Rules role =
        [ PolicyRule.mk [v1alpha1_GroupName] [TiDBClusterName]
            [TidbCluster.GetName tc] ["get"];
          secrets ]
  | DMClusterObject dc =>
      Role.Rules role =
        [ PolicyRule.mk [v1alpha1_GroupName] [DMClusterName]
            [DMCluster.GetName dc] ["get"];
          secrets ]
  | _ => False
  end.
Proof.
  intros Hrun Hin.
  destruct (run_cases inner cfg obj w journal result Hrun)
    as [->|(meta & l & rule & ipv6 & Hk & _ & Hv & HJ)];
    [by apply elem_of_nil in Hin|].
  destruct (journal_events _ _ _ _ _ _ _ HJ) as (Hrole & _).
  destruct (Hrole _ _ Hin) as (-> & _).
  destruct obj as [|tc|dc|]; try discriminate; cbn in Hv;
    by injection Hv as <- <-.
Qed.

Lemma role_grants_own_cluster_and_secrets_witness :
  Role.Rules successfulRole =
    [ PolicyRule.mk ["pingcap.com"] ["dmclusters"] ["foo"] ["get"];
      PolicyRule.mk [""] ["secrets"] [] ["get"; "list"; "watch"] ].
Proof.
  exact (role_grants_own_cluster_and_secrets (Ext := Reference.ext)
           (Reference.control None None) Reference.cfg
           (DMClusterObject Reference.dcFoo) 0%nat
           (fst successfulRun) (snd successfulRun)
           successfulRole (inl successfulRole)
           (surjective_pairing successfulRun)
           (successfulRun_member 0 _ eq_refl)).
Defined.

Lemma build_ok_meta `{Ext : Externals} {W}
    (m : realTidbDiscoveryManager W) obj d meta l :
  getTidbDiscoveryDeployment m obj = Ok d →
  getDiscoveryMeta obj DiscoveryMemberName = Ok (meta, l) →
  sameIdentity (Deployment.Meta d) meta ∧
  PodSpec.ServiceAccountName (podSpecOf d) = ObjectMeta.Name meta.
Proof.
  intros Hd Hmeta.
  assert (knownVariant obj = true) as Hk.
  { destruct obj; try done; discriminate Hd. }
  destruct (known_inputs obj Hk)
    as (resources & timezone & baseSpec & meta' & l' & _ & Hbase & Hmeta' & _).
  rewrite Hmeta in Hmeta'. injection Hmeta' as <- <-.
  rewrite (build_cases m obj baseSpec meta l Hbase Hmeta) in Hd.
  destruct (MergePatchContainers _ _) as [merged|err]; [|done].
  rewrite tlsAugment_cases in Hd.
  destruct (tlsBranch obj).
  - cbn in Hd. destruct merged as [|c0 rest]; [done|].
    destruct (json_Marshal _) as [b|]; [|done]. by injection Hd as <-.
  - destruct (json_Marshal _) as [b|]; [|done]. by injection Hd as <-.
Qed.

(** Whenever [Reconcile] asks for the Deployment, the ServiceAccount was
    applied successfully before, and the pod of the desired Deployment runs
    under the service account of just that name, in the namespace of that
    ServiceAccount. *)
Theorem pod_runs_as_applied_service_account `{Ext : Externals} {W}
    (inner : TypedControlInterface W) (cfg : CLIConfig.t) (obj : Object)
    (w : W) (journal : list Event) (result : res unit)
    (d : Deployment.t) (answer : Deployment.t + error) :
  run inner cfg obj w = (journal, result) →
  ApplyDeployment d answer ∈ journal →
  ∃ sa a,
    journal !! 1%nat = Some (ApplyServiceAccount sa (inl a)) ∧
    PodSpec.ServiceAccountName (podSpecOf d)
      = ObjectMeta.Name (ServiceAccount.Meta sa) ∧
    ObjectMeta.Namespace (Deployment.Meta d)
      = ObjectMeta.Namespace (ServiceAccount.Meta sa).
Proof.
  intros Hrun Hin.
  destruct (run_cases inner cfg obj w journal result Hrun)
    as [->|(meta & l & rule & ipv6 & _ & Hmeta & _ & HJ)];
    [by apply elem_of_nil in Hin|].
  destruct (journal_events _ _ _ _ _ _ _ HJ) as (_ & _ & _ & Hdep & _).
  destruct (Hdep _ _ Hin) as (Hbuild & _ & a & H1).
  destruct (build_ok_meta _ _ _ _ _ Hbuild Hmeta) as ((_ & Hns & _) & Hsa).
  by exists (discoveryServiceAccount meta), a.
Qed.

Lemma pod_runs_as_applied_service_account_witness :
  ∃ sa a,
    fst successfulRun !! 1%nat = Some (ApplyServiceAccount sa (inl a)) ∧
    PodSpec.ServiceAccountName (podSpecOf successfulDeployment)
      = ObjectMeta.Name (ServiceAccount.Meta sa).
Proof.
  destruct (pod_runs_as_applied_service_account (Ext := Reference.ext)
              (Reference.control None None) Reference.cfg
              (DMClusterObject Reference.dcFoo) 0%nat
              (fst successfulRun) (snd successfulRun)
              successfulDeployment (inl successfulDeployment)
              (surjective_pairing successfulRun)
              (successfulRun_member 3 _ eq_refl))
    as (sa & a & H1 & Hsa & _).
  by exists sa, a.
Defined.

(** ** The Service, completely *)

(** Whenever [Reconcile] asks for the Service, the Deployment was applied
    successfully right before, and the desired Service is determined as
    follows.  It carries the metadata [getDiscoveryMeta] derives for the
    object, is of type ClusterIP with the two discovery ports and selects
    on the applied Deployment's pod-template labels, with no IP-family
    field set; it is passed through [SetServiceWhenPreferIPv6] exactly
    when the object is a TidbCluster whose spec prefers IPv6, and never
    for a DMCluster. *)
Theorem service_is_plain_unless_ipv6_preferred `{Ext : Externals} {W}
    (inner : TypedControlInterface W) (cfg : CLIConfig.t) (obj : Object)
    (w : W) (journal : list Event) (result : res unit)
    (svc : Service.t) (answer : Service.t + error) :
  run inner cfg obj w = (journal, result) →
  ApplyService svc answer ∈ journal →
  ∃ meta l desired applied,
    getDiscoveryMeta obj DiscoveryMemberName = Ok (meta, l) ∧
    journal !! 3%nat = Some (ApplyDeployment desired (inl applied)) ∧
    let plain :=
      Service.mk meta
        (ServiceSpec.mk "ClusterIP" discoveryPorts (templateLabels applied)
           None []) in
    svc =
    match obj with
    | TidbClusterObject tc =>
        if TidbClusterSpec.PreferIPv6 (TidbCluster.Spec tc)
        then SetServiceWhenPreferIPv6 plain
        else plain
    | _ => plain
    end.
Proof.
  intros Hrun Hin.
  destruct (run_cases inner cfg obj w journal result Hrun)
    as [->|(meta & l & rule & ipv6 & Hk & Hmeta & Hv & HJ)];
    [by apply elem_of_nil in Hin|].
  destruct (journal_events _ _ _ _ _ _ _ HJ) as (_ & _ & _ & _ & Hsvc).
  destruct (Hsvc _ _ Hin) as (d & deploy & _ & Hs & H3 & _).
  exists meta, l, d, deploy. split; [done|]. split; [done|].
  unfold getTidbDiscoveryService in Hs. rewrite Hmeta in Hs.
  injection Hs as <-.
  destruct obj as [|tc|dc|]; try discriminate; cbn in Hv;
    by injection Hv as _ <-.
Qed.

Lemma service_is_plain_unless_ipv6_preferred_witness :
  ServiceSpec.IPFamilyPolicy (Service.Spec successfulService) = None ∧
  ServiceSpec.IPFamilies (Service.Spec successfulService) = [].
Proof.
  destruct (service_is_plain_unless_ipv6_preferred (Ext := Reference.ext)
              (Reference.control None None) Reference.cfg
              (DMClusterObject Reference.dcFoo) 0%nat
              (fst successfulRun) (snd successfulRun)
              successfulService (inl successfulService)
              (surjective_pairing successfulRun)
              (successfulRun_member 4 _ eq_refl))
    as (meta & l & desired & applied & _ & _ & Hsvc).
  cbn zeta in Hsvc. rewrite Hsvc. split; reflexivity.
Defined.

(** ** How [Reconcile] ends *)

Ltac no_failure_contradiction Hall :=
  exfalso;
  match type of Hall with
  | ∀ ev, ev ∈ ?j → _ =>
      match j with
      | context [?mk ?x (inr ?err)] =>
          let Hf := fresh in
          assert (failed (mk x (inr err)) = None) as Hf
            by (apply Hall; apply list_elem_of_In; cbn; tauto);
          discriminate Hf
      end
  end.

(** For an object that needs discovery: when the last operation asked for
    failed, [Reconcile] returns the requeue error whose text is a prefix
    fixed by the kind of that operation followed by the text of the
    operation's error - the prefix of a failed Deployment being the one of
    a failed Service, "error creating or updating discovery service: ".
    When [Reconcile] returns an error although no operation failed, exactly
    the three RBAC resources were asked for and the error is the requeue
    error "error generating discovery deployment: " followed by the text
    of the build's error. *)
Theorem failure_messages `{Ext : Externals} {W}
    (inner : TypedControlInterface W) (cfg : CLIConfig.t) (obj : Object)
    (w : W) (journal : list Event) (result : res unit) :
  knownVariant obj = true →
  discoveryNeeded obj = true →
  run inner cfg obj w = (journal, result) →
  (∀ ev err,
     last journal = Some ev → failed ev = Some err →
     result = Err (RequeueError (failurePrefix (kind ev) +:+ Error err))) ∧
  (∀ e,
     result = Err e →
     (∀ ev, ev ∈ journal → failed ev = None) →
     kind <$> journal = [KRole; KServiceAccount; KRoleBinding] ∧
     ∃ err,
       getTidbDiscoveryDeployment (recordingManager inner cfg) obj = Err err ∧
       e = RequeueError
             ("error generating discovery deployment: " +:+ Error err)).
Proof.
  intros Hk Hn Hrun.
  destruct (run_journal inner cfg obj w Hk Hn)
    as (meta & l & rule & ipv6 & _ & _ & HJ).
  rewrite Hrun in HJ. cbn [fst snd] in HJ. clear Hrun.
  destruct HJ as [err|r err|r a err|r a b err Hb|r a b msg Hb|r a b d err Hb
                 |r a b d deploy svc err Hb Hs|r a b d deploy svc applied Hb Hs];
    (split; [intros ev err' Hlast Hfail; cbn in Hlast;
             injection Hlast as <-; cbn in Hfail;
             try discriminate Hfail; by injection Hfail as <-
            |intros e He Hall; try discriminate He]).
  - no_failure_contradiction Hall.
  - no_failure_contradiction Hall.
  - no_failure_contradiction Hall.
  - injection He as <-. split; [done|]. by exists err.
  - no_failure_contradiction Hall.
  - no_failure_contradiction Hall.
Qed.

(** The Deployment is refused: the message speaks of the service. *)
Lemma failure_messages_witness :
  snd refusedDeploymentRun
  = Err (RequeueError
           "error creating or updating discovery service: connection refused").
Proof.
  assert (last (fst refusedDeploymentRun)
          = Some (ApplyDeployment refusedDeployment
                    (inr (PlainError "connection refused"))))
    as Hlast
    by vm_cast_no_check
         (@eq_refl (option Event) (last (fst refusedDeploymentRun))).
  exact (proj1 (failure_messages (Ext := Reference.ext)
                  (Reference.control (Some 3%nat) None) Reference.cfg
                  (DMClusterObject Reference.dcFoo) 0%nat
                  (fst refusedDeploymentRun) (snd refusedDeploymentRun)
                  eq_refl eq_refl (surjective_pairing refusedDeploymentRun))
           _ _ Hlast eq_refl).
Defined.

(** Let [tc] be a TidbCluster with cluster TLS and a local PD that needs
    discovery, and let the container merge answer with no container at all.
    Then [Reconcile] on the pointer to [tc] asks for the Role, the
    ServiceAccount and the RoleBinding, in this order and up to the first
    failure, and never for the Deployment or the Service; it does not
    return nil; and it panics - with the index-out-of-range of
    [Containers[0]], line 260 - if and only if all three operations were
    asked for and none of them failed, returning a requeue error
    otherwise. *)
Theorem reconcile_panics_on_lost_containers `{Ext : Externals} {W}
    (inner : TypedControlInterface W) (cfg : CLIConfig.t) (tc : TidbCluster.t)
    (w : W) (journal : list Event) (result : res unit) :
  TidbCluster.IsTLSClusterEnabled tc = true →
  TidbCluster.WithoutLocalPD tc = false →
  discoveryNeeded (TidbClusterObject tc) = true →
  MergePatchContainers
    (mergeInput (recordingManager inner cfg) (TidbClusterObject tc))
    (mergePatches (TidbClusterObject tc)) = inl [] →
  run inner cfg (TidbClusterObject tc) w = (journal, result) →
  kind <$> journal `prefix_of` [KRole; KServiceAccount; KRoleBinding] ∧
  result ≠ Ok tt ∧
  (result = Panic "runtime error: index out of range [0] with length 0" ↔
   kind <$> journal = [KRole; KServiceAccount; KRoleBinding] ∧
   ∀ ev, ev ∈ journal → failed ev = None) ∧
  ((∃ ev, ev ∈ journal ∧ failed ev ≠ None) →
   ∃ text, result = Err (RequeueError text)).
Proof.
  intros Htls Hpd Hn Hmerge Hrun.
  assert (getTidbDiscoveryDeployment (recordingManager inner cfg)
            (TidbClusterObject tc)
          = Panic "runtime error: index out of range [0] with length 0")
    as Hbuild.
  { apply build_lost_containers; [done| |done]. cbn. by rewrite Htls, Hpd. }
  destruct (run_journal inner cfg (TidbClusterObject tc) w eq_refl Hn)
    as (meta & l & rule & ipv6 & _ & _ & HJ).
  rewrite Hrun, Hbuild in HJ. cbn [fst snd] in HJ. clear Hrun Hbuild.
  inversion HJ as [err|r err|r a err|r a b err Hb|r a b msg Hb|r a b d err Hb
                  |r a b d deploy svc err Hb Hs|r a b d deploy svc applied Hb Hs];
    subst; try discriminate.
  - split; [by exists [KServiceAccount; KRoleBinding]|]. split; [done|].
    split; [split; [done|by intros [[=] _]]|]. intros _. eauto.
  - split; [by exists [KRoleBinding]|]. split; [done|].
    split; [split; [done|by intros [[=] _]]|]. intros _. eauto.
  - split; [by exists []|]. split; [done|].
    split; [split; [done|]|intros _; eauto].
    intros [_ Hall].
    assert (failed (ApplyRoleBinding (discoveryRoleBinding meta) (inr err))
            = None) as Hf
      by (apply Hall; apply list_elem_of_In; cbn; tauto).
    discriminate Hf.
  - injection Hb as <-. split; [by exists []|]. split; [done|].
    split.
    + split; [intros _|done]. split; [done|].
      intros ev Hin. journal_member Hin.
    + intros (ev & Hin & Hf). exfalso. apply Hf. journal_member Hin.
Qed.

Lemma reconcile_panics_on_lost_containers_witness :
  snd lostContainersRun
  = Panic "runtime error: index out of range [0] with length 0".
Proof.
  assert (kind <$> fst lostContainersRun
          = [KRole; KServiceAccount; KRoleBinding]) as Hkinds
    by vm_cast_no_check
         (@eq_refl (list Kind) (kind <$> fst lostContainersRun)).
  assert (∀ ev, ev ∈ fst lostContainersRun → failed ev = None) as Hall.
  { intros ev Hin. apply list_elem_of_lookup in Hin as [i Hi].
    assert (length (fst lostContainersRun) = 3%nat) as Hlen
      by (rewrite <-(length_fmap kind), Hkinds; reflexivity).
    apply lookup_lt_Some in Hi as Hlt. rewrite Hlen in Hlt.
    destruct i as [|[|[|i]]]; [| | |lia];
      match type of Hi with
      | _ !! ?k = _ =>
          assert (failed <$> (fst lostContainersRun !! k) = Some None) as Hf
            by vm_cast_no_check (@eq_refl (option (option error)) (Some None))
      end;
      rewrite Hi in Hf; by injection Hf. }
  apply (proj1 (proj2 (proj2
           (reconcile_panics_on_lost_containers (Ext := losingMerge)
              (Reference.control None None) Reference.cfg
              (Reference.tcFoo true) 0%nat
              (fst lostContainersRun) (snd lostContainersRun)
              eq_refl eq_refl eq_refl eq_refl
              (surjective_pairing lostContainersRun))))).
  split; [exact Hkinds|exact Hall].
Defined.

(** With a collaborator none of whose operations fails, [Reconcile] on an
    object that needs discovery returns nil exactly when the Deployment
    build succeeds: nothing but the collaborator and the build can make it
    fail. *)
Theorem reconcile_succeeds_iff_build_succeeds `{Ext : Externals} {W}
    (inner : TypedControlInterface W) (cfg : CLIConfig.t) (obj : Object)
    (s : state W) :
  AlwaysSucceeds inner →
  knownVariant obj = true →
  discoveryNeeded obj = true →
  snd (Reconcile (NewTidbDiscoveryManager (Dependencies.mk inner cfg)) obj s)
    = Ok tt ↔
  ∃ d, getTidbDiscoveryDeployment
         (NewTidbDiscoveryManager (Dependencies.mk inner cfg)) obj = Ok d.
Proof.
  intros (Hrole & Hsa & Hrb & Hdep & Hsvc) Hk Hn.
  destruct (Reconcile_known
              (NewTidbDiscoveryManager (Dependencies.mk inner cfg)) obj s Hk Hn)
    as (rule & ipv6 & _ & ->).
  destruct (getDiscoveryMeta_known obj DiscoveryMemberName Hk)
    as (meta & l & Hmeta).
  unfold reconcileResources. rewrite Hmeta.
  cbn [deps Dependencies.TypedControl].
  destruct (Hrole obj (discoveryRole meta rule) (world s)) as (w1 & r & ->).
  destruct (Hsa obj (discoveryServiceAccount meta) w1) as (w2 & a & ->).
  destruct (Hrb obj (discoveryRoleBinding meta) w2) as (w3 & b & ->).
  destruct (getTidbDiscoveryDeployment _ obj) as [d|err|msg];
    [|split; [done|by intros [d [=]]]..].
  destruct (Hdep obj d w3) as (w4 & deploy & ->).
  destruct (getTidbDiscoveryService_known obj deploy ipv6 Hk) as (svc & ->).
  destruct (Hsvc obj svc w4) as (w5 & applied & ->).
  split; [by exists d|done].
Qed.

Lemma echoControl_always_succeeds : AlwaysSucceeds echoControl.
Proof. repeat split; intros; eexists _, _; reflexivity. Defined.

Lemma reconcile_succeeds_iff_build_succeeds_witness :
  snd (Reconcile (Ext := Reference.ext)
         (NewTidbDiscoveryManager (Dependencies.mk echoControl Reference.cfg))
         (DMClusterObject Reference.dcFoo) (mkState tt []))
  = Ok tt.
Proof.
  apply (reconcile_succeeds_iff_build_succeeds (Ext := Reference.ext)
           echoControl Reference.cfg (DMClusterObject Reference.dcFoo)
           (mkState tt []) echoControl_always_succeeds eq_refl eq_refl).
  eexists. vm_compute. reflexivity.
Defined.

(** ** The fake manager *)

(** After any sequence of [SetReconcileError] calls on a new fake,
    [Reconcile] answers with the error of the last call - nil if that call
    set nil or if there was no call - for every object, the nil interface
    included, and leaves the fake as it is. *)
Theorem fake_answers_with_last_error
    (sets : list (option error)) (obj : Object) :
  let fake :=
    fold_left (fun m e => Fake.SetReconcileError e m) sets
      Fake.NewFakeDiscoveryManger in
  Fake.Reconcile fake obj = (fake, default None (last sets)).
Proof.
  cbn zeta. induction sets as [|e sets _] using rev_ind; [done|].
  rewrite fold_left_app, last_snoc. cbn. by destruct e.
Qed.
